(** * Configuration resolution of the Tower/AWX Ansible module base class

    Shallow embedding of [awx_collection/plugins/module_utils/tower_module.py]
    (class [TowerModule]): the discovery of the implicit config files, the
    per-file loader [load_config], the loop of [load_config_files] and the
    direct-parameter overrides of [__init__], together with the properties
    the specification states about them.

    Python strings are modelled as [string] (byte strings), a Python [dict]
    with string keys as a [gmap string _], the attributes of [self] as a
    record that is threaded through a small state-and-exception monad. *)

From stdpp Require Import gmap strings list.
From Equations Require Import Equations.
From Stdlib Require Import Ascii String ZArith.

Local Open Scope string_scope.

(** * Python values and strings *)

(** The values a YAML/JSON document or an INI file can put into
    [config_data], and that end up in the attributes of the module. *)
#[warnings="-register-all"]
Inductive pyval : Type :=
| VNone
| VBool (b : bool)
| VInt (n : Z)
| VStr (s : string)
| VList (l : list pyval).

(** [bool(x)]: Python's truth value of an object. *)
Definition truthy (v : pyval) : bool :=
  match v with
  | VNone => false
  | VBool b => b
  | VInt n => negb (n =? 0)%Z
  | VStr s => negb (String.eqb s "")
  | VList l => match l with [] => false | _ :: _ => true end
  end.

(** [type(x) is bool] *)
Definition is_bool (v : pyval) : bool :=
  match v with VBool _ => true | _ => false end.

(** [type(x) is str] *)
Definition is_str (v : pyval) : bool :=
  match v with VStr _ => true | _ => false end.

(** Truth value of [params.get(name)] for a string parameter: [None] and
    the empty string are false. *)
Definition str_truthy (o : option string) : bool :=
  match o with
  | Some s => negb (String.eqb s "")
  | None => false
  end.

Definition nonempty (s : string) : bool :=
  match s with EmptyString => false | String _ _ => true end.

(** [str.lower] on ASCII letters. *)
Definition lower_ascii (c : ascii) : ascii :=
  let n := nat_of_ascii c in
  if (65 <=? n)%nat && (n <=? 90)%nat then ascii_of_nat (n + 32) else c.

Fixpoint lower (s : string) : string :=
  match s with
  | EmptyString => EmptyString
  | String c s' => String (lower_ascii c) (lower s')
  end.

(** * [os.path] on POSIX *)

Module posixpath.

Definition sep : ascii := "/"%char.

(** [head == sep * len(head)] *)
Fixpoint all_seps (s : string) : bool :=
  match s with
  | EmptyString => true
  | String c s' => Ascii.eqb c sep && all_seps s'
  end.

(** [(p[:i], p[i:])] for [i = p.rfind(sep) + 1]: the text up to and
    including the last separator, and the text after it. *)
Fixpoint rpartition (p : string) : string * string :=
  match p with
  | EmptyString => (EmptyString, EmptyString)
  | String c p' =>
      let '(h, t) := rpartition p' in
      match h with
      | String _ _ => (String c h, t)
      | EmptyString =>
          if Ascii.eqb c sep then (String c EmptyString, t)
          else (EmptyString, String c t)
      end
  end.

(** [s.rstrip(sep)] *)
Fixpoint rstrip_sep (s : string) : string :=
  match s with
  | EmptyString => EmptyString
  | String c s' =>
      match rstrip_sep s' with
      | EmptyString => if Ascii.eqb c sep then EmptyString else String c EmptyString
      | r => String c r
      end
  end.

(** [s.endswith(sep)] *)
Fixpoint endswith_sep (s : string) : bool :=
  match s with
  | EmptyString => false
  | String c EmptyString => Ascii.eqb c sep
  | String _ s' => endswith_sep s'
  end.

(** [s.startswith(sep)] *)
Definition startswith_sep (s : string) : bool :=
  match s with
  | String c _ => Ascii.eqb c sep
  | EmptyString => false
  end.

(** [os.path.split(p)]:
<<
  i = p.rfind(sep) + 1
  head, tail = p[:i], p[i:]
  if head and head != sep*len(head):
      head = head.rstrip(sep)
  return head, tail
>> *)
Definition split (p : string) : string * string :=
  let '(head, tail) := rpartition p in
  let head :=
    if nonempty head && negb (all_seps head) then rstrip_sep head else head in
  (head, tail).

(** [os.path.join(a, b)] with one extra component. *)
Definition join (a b : string) : string :=
  if startswith_sep b then b
  else if negb (nonempty a) || endswith_sep a then a +:+ b
  else a +:+ "/" +:+ b.

End posixpath.

(** * The list of implicit config files *)

(** [list.insert(i, x)]: [x] is put before position [i], at the end when
    the list is shorter than [i]. *)
Definition py_insert {A} (i : nat) (x : A) (l : list A) : list A :=
  (take i l ++ x :: drop i l)%list.

Definition config_name : string := "tower_cli.cfg".

(** [".{0}".format(self.config_name)] *)
Definition dot_config_name : string := "." +:+ config_name.

Definition inspect {A} (a : A) : {b | a = b} := exist _ a eq_refl.

Lemma rpartition_length p :
  String.length (posixpath.rpartition p).1 + String.length (posixpath.rpartition p).2
  = String.length p.
Proof.
  induction p as [|c p IH]; simpl; [done|].
  destruct (posixpath.rpartition p) as [h t]; simpl in *.
  destruct h; simpl in *; [destruct (Ascii.eqb c posixpath.sep); simpl; lia | lia].
Qed.

Lemma rstrip_sep_length s : String.length (posixpath.rstrip_sep s) <= String.length s.
Proof.
  induction s as [|c s IH]; simpl; [done|].
  destruct (posixpath.rstrip_sep s); simpl in *;
    [destruct (Ascii.eqb c posixpath.sep); simpl; lia | lia].
Qed.

Lemma split_length p :
  String.length (posixpath.split p).1 + String.length (posixpath.split p).2
  <= String.length p.
Proof.
  unfold posixpath.split. pose proof (rpartition_length p) as L.
  destruct (posixpath.rpartition p) as [h t]; simpl in *.
  destruct (nonempty h && negb (posixpath.all_seps h)); simpl; [|lia].
  pose proof (rstrip_sep_length h). lia.
Qed.

(** The loop of [load_config_files] that walks up from the working
    directory:
<<
    while split(local_dir)[1]:
        local_dir = split(local_dir)[0]
        config_files.insert(2, join(local_dir, ".{0}".format(self.config_name)))
>>
    Every turn strictly shortens [local_dir], which is the measure of the
    recursion. *)
Equations? walk_up (local_dir : string) (config_files : list string)
  : list string by wf (String.length local_dir) lt :=
walk_up local_dir config_files with inspect (posixpath.split local_dir).2 := {
  | exist _ EmptyString _ := config_files
  | exist _ (String _ _) H :=
      walk_up (posixpath.split local_dir).1
        (py_insert 2 (posixpath.join (posixpath.split local_dir).1 dot_config_name)
           config_files) }.
Proof.
  pose proof (split_length local_dir) as L. rewrite H in L. simpl in L. lia.
Qed.

(** The first lines of [load_config_files]; [home] is [expanduser("~")] and
    [cwd] is [getcwd()]:
<<
    config_files = ['/etc/tower/tower_cli.cfg', join(expanduser("~"), ".{0}".format(self.config_name))]
    local_dir = getcwd()
    config_files.append(join(local_dir, self.config_name))
    while ...
>> *)
Definition config_files (home cwd : string) : list string :=
  let config_files :=
    ["/etc/tower/tower_cli.cfg"; posixpath.join home dot_config_name] in
  let local_dir := cwd in
  let config_files := (config_files ++ [posixpath.join local_dir config_name])%list in
  walk_up local_dir config_files.

(** * The module object *)

(** The attributes of [self] that configuration resolution reads and
    writes, and the warnings handed to [AnsibleModule.warn]. *)
Record TowerModule : Type := mkTowerModule {
  host : pyval;
  username : pyval;
  password : pyval;
  verify_ssl : pyval;
  oauth_token : pyval;
  warnings : list string
}.

(** The class attributes: what an instance reads before any assignment. *)
Definition class_defaults : TowerModule :=
  {| host := VStr "127.0.0.1"; username := VNone; password := VNone;
     verify_ssl := VBool true; oauth_token := VNone; warnings := [] |}.

Definition honorred_settings : list string :=
  ["host"; "username"; "password"; "verify_ssl"; "oauth_token"].

(** [getattr(self, name)] and [setattr(self, name, v)] for the honoured
    settings, the only names they are called with. *)
Definition getattr (self : TowerModule) (name : string) : pyval :=
  if String.eqb name "host" then host self
  else if String.eqb name "username" then username self
  else if String.eqb name "password" then password self
  else if String.eqb name "verify_ssl" then verify_ssl self
  else if String.eqb name "oauth_token" then oauth_token self
  else VNone.

Definition setattr (self : TowerModule) (name : string) (v : pyval) : TowerModule :=
  let '(mkTowerModule h u p s o w) := self in
  if String.eqb name "host" then mkTowerModule v u p s o w
  else if String.eqb name "username" then mkTowerModule h v p s o w
  else if String.eqb name "password" then mkTowerModule h u v s o w
  else if String.eqb name "verify_ssl" then mkTowerModule h u p v o w
  else if String.eqb name "oauth_token" then mkTowerModule h u p s v w
  else self.

(** [self.params]: the directly supplied values. Ansible has already
    coerced [validate_certs] to a boolean (its type is ['bool']); a
    parameter that was not supplied is [None]. *)
Record Params : Type := mkParams {
  tower_host : option string;
  tower_username : option string;
  tower_password : option string;
  validate_certs : option bool;
  tower_oauthtoken : option string;
  tower_config_file : option string
}.

Definition no_params : Params :=
  {| tower_host := None; tower_username := None; tower_password := None;
     validate_certs := None; tower_oauthtoken := None; tower_config_file := None |}.

(** * Exceptions and the monad of methods *)

Inductive exn : Type :=
| ConfigFileException (msg : string)
| ValueError (msg : string)
| FailJson (msg : string)
| ReadError (msg : string).
(** [FailJson msg] is the exit of the process through
    [AnsibleModule.fail_json(msg=msg)]. [ReadError msg] is the exception
    with which [open(config_path, 'r').read()] ends when it raises: a
    [UnicodeDecodeError] for bytes that are not text in the encoding, or an
    [OSError]. *)

(** A method call ends normally or with an exception; either way [self]
    keeps the assignments made so far. *)
Inductive result (A : Type) : Type :=
| Ok (a : A) (self : TowerModule)
| Raise (e : exn) (self : TowerModule).
Arguments Ok {A} a self.
Arguments Raise {A} e self.

Definition M (A : Type) : Type := TowerModule -> result A.

#[export] Instance M_ret : MRet M := fun A a self => Ok a self.
#[export] Instance M_bind : MBind M := fun A B f m self =>
  match m self with
  | Ok a self' => f a self'
  | Raise e self' => Raise e self'
  end.

Definition raise {A} (e : exn) : M A := fun self => Raise e self.

(** An exception raised by a pure library call. *)
Definition lift {A} (r : exn + A) : M A :=
  match r with
  | inl e => raise e
  | inr a => mret a
  end.

(** [try: body  except ConfigFileException as e: handler(e)] *)
Definition try_except {A} (body : M A) (handler : string -> M A) : M A :=
  fun self =>
    match body self with
    | Raise (ConfigFileException msg) self' => handler msg self'
    | r => r
    end.

(** [for x in l: body(x)] *)
Fixpoint for_each {A} (l : list A) (body : A -> M unit) : M unit :=
  match l with
  | [] => mret tt
  | x :: l' => body x;; for_each l' body
  end.

Definition modify (f : TowerModule -> TowerModule) : M unit :=
  fun self => Ok tt (f self).

(** [self.warn(msg)] *)
Definition add_warning (msg : string) (self : TowerModule) : TowerModule :=
  let '(mkTowerModule h u p s o w) := self in mkTowerModule h u p s o (w ++ [msg])%list.

Definition warn (msg : string) : M unit := modify (add_warning msg).

(** [self.fail_json(msg=msg)]: [logout] does nothing in this class, then
    the process exits. *)
Definition fail_json {A} (msg : string) : M A := raise (FailJson msg).

(** * The environment: file system and libraries *)

(** What the file system holds at a path. [Special] is anything that
    exists and is neither a regular file nor a directory. [File] is a
    regular file that can be opened and decoded, with the answer of
    [os.access(path, R_OK)] and its text. [Broken] is a regular file that
    passes the access test and whose [open(path, 'r').read()] raises, with
    the message of the exception. *)
Inductive fnode : Type :=
| Missing
| Directory
| Special
| File (readable : bool) (content : string)
| Broken (error : string).

(** Outcome of [yaml.load(text, Loader=yaml.SafeLoader)]. *)
Inductive yaml_result : Type :=
| YamlDict (d : gmap string pyval)
| YamlValue (v : pyval)
| YAMLError (msg : string)
| YamlException (msg : string).
(** [YamlDict]: the document is a mapping (only its string keys matter to
    the caller). [YamlValue]: any other document. [YAMLError]: the loader
    raised [yaml.YAMLError] or [AttributeError]. [YamlException]: it raised
    another exception. *)

(** Outcome of [config.get(section, option)]. *)
Inductive get_result : Type :=
| GetValue (v : string)
| NoOptionError
| GetRaises (msg : string).

Class Env : Type := {
  expanduser_home : string;
  getcwd : string;
  stat : string -> fnode;
  yaml_load : string -> yaml_result;
  ConfigParser : Type;
  (** [config = ConfigParser(); config.read_file(StringIO(text))]:
      the message of the exception raised, or the parser that was filled *)
  read_file : string -> string + ConfigParser;
  get : ConfigParser -> string -> string -> get_result
}.

(** [distutils.util.strtobool]:
<<
    val = val.lower()
    if val in ('y', 'yes', 't', 'true', 'on', '1'):
        return 1
    elif val in ('n', 'no', 'f', 'false', 'off', '0'):
        return 0
    else:
        raise ValueError("invalid truth value %r" % (val,))
>> *)
Definition str_in (x : string) (l : list string) : bool :=
  existsb (String.eqb x) l.

Definition strtobool (val : string) : exn + pyval :=
  let val := lower val in
  if str_in val ["y"; "yes"; "t"; "true"; "on"; "1"] then inr (VInt 1)
  else if str_in val ["n"; "no"; "f"; "false"; "off"; "0"] then inr (VInt 0)
  else inl (ValueError ("invalid truth value '" +:+ val +:+ "'")).

(** [needle in s] *)
Fixpoint contains (needle s : string) : bool :=
  String.prefix needle s
  || match s with
     | EmptyString => false
     | String _ s' => contains needle s'
     end.

(** * [load_config] and [load_config_files] *)

Section Resolution.

Context `{env : Env}.

(** [os.path.exists], [isdir], [isfile], [os.access(path, R_OK)], and
    [open(path, 'r').read()], which returns the text or raises. *)
Definition exists_ (path : string) : bool :=
  match stat path with Missing => false | _ => true end.

Definition isdir (path : string) : bool :=
  match stat path with Directory => true | _ => false end.

Definition isfile (path : string) : bool :=
  match stat path with File _ _ | Broken _ => true | _ => false end.

Definition access_R_OK (path : string) : bool :=
  match stat path with
  | File readable _ => readable
  | Missing => false
  | _ => true
  end.

Definition read (path : string) : M string :=
  match stat path with
  | File _ content => mret content
  | Broken error => raise (ReadError error)
  | Missing => raise (ReadError "[Errno 2] No such file or directory")
  | Directory => raise (ReadError "[Errno 21] Is a directory")
  | Special => raise (ReadError "[Errno 13] Permission denied")
  end.

(** The loop that pulls the honoured settings out of the INI parser:
<<
  config_data = {}
  for honorred_setting in self.honorred_settings:
      try:
          config_data[honorred_setting] = config.get('general', honorred_setting)
      except NoOptionError:
          pass
>>
    Any other exception of [get] leaves the loop with its message. *)
Fixpoint ini_settings (config : ConfigParser) (names : list string)
    (config_data : gmap string pyval) : string + gmap string pyval :=
  match names with
  | [] => inr config_data
  | honorred_setting :: names' =>
      match get config "general" honorred_setting with
      | GetValue v =>
          ini_settings config names' (<[honorred_setting := VStr v]> config_data)
      | NoOptionError => ini_settings config names' config_data
      | GetRaises msg => inl msg
      end
  end.

(** The handler of [(AttributeError, yaml.YAMLError, AssertionError)]:
    the text is read as an INI file, after ["[general]"] has been put in
    front of it when the text does not contain that marker. *)
Definition load_ini (config_string : string) : exn + gmap string pyval :=
  let config_string :=
    if negb (contains "[general]" config_string)
    then "[general]" +:+ config_string
    else config_string in
  let failed msg :=
    ConfigFileException
      ("An unknown exception occured trying to ini load config file: " +:+ msg) in
  match read_file config_string with
  | inl msg => inl (failed msg)
  | inr config =>
      match ini_settings config honorred_settings ∅ with
      | inl msg => inl (failed msg)
      | inr config_data => inr config_data
      end
  end.

(** The parsing half of [load_config]: YAML first, INI when the YAML
    loader fails or returns something that is not a dict. It assigns
    nothing to [self]. *)
Definition parse_config (config_string : string) : exn + gmap string pyval :=
  match yaml_load config_string with
  | YamlDict config_data => inr config_data
  | YamlValue _ | YAMLError _ => load_ini config_string
  | YamlException msg =>
      inl (ConfigFileException
             ("An unknown exception occured trying to load config file: " +:+ msg))
  end.

(** The body of the last loop of [load_config] for one setting. *)
Definition apply_setting (config_data : gmap string pyval)
    (honorred_setting : string) : M unit :=
  match config_data !! honorred_setting with
  | Some v =>
      if String.eqb honorred_setting "verify_ssl" then
        match v with
        | VStr s =>
            b ← lift (strtobool s);
            modify (fun self => setattr self honorred_setting b)
        | _ => modify (fun self => setattr self honorred_setting (VBool (truthy v)))
        end
      else modify (fun self => setattr self honorred_setting v)
  | None => mret tt
  end.

Definition load_config (config_path : string) : M unit :=
  if negb (isfile config_path) then
    raise (ConfigFileException "The specified config file does not exist")
  else if negb (access_R_OK config_path) then
    raise (ConfigFileException "The specified config file cannot be read")
  else
    config_string ← read config_path;
    config_data ← lift (parse_config config_string);
    for_each honorred_settings (apply_setting config_data).

(** Truth value of [self.params.get(direct_field)]. *)
Definition param_truthy (params : Params) (direct_field : string) : bool :=
  if String.eqb direct_field "tower_host" then str_truthy (tower_host params)
  else if String.eqb direct_field "tower_username" then str_truthy (tower_username params)
  else if String.eqb direct_field "tower_password" then str_truthy (tower_password params)
  else if String.eqb direct_field "validate_certs" then
    match validate_certs params with Some b => b | None => false end
  else if String.eqb direct_field "tower_oauthtoken" then
    str_truthy (tower_oauthtoken params)
  else false.

Definition direct_fields : list string :=
  ["tower_host"; "tower_username"; "tower_password"; "validate_certs";
   "tower_oauthtoken"].

Definition duplicated_params (params : Params) : list string :=
  List.filter (param_truthy params) direct_fields.

Definition duplicate_warning (duplicated : list string) : string :=
  "The parameter(s) " +:+ String.concat ", " duplicated
  +:+ " were provided at the same time as tower_config_file. "
  +:+ "Precedence may be unstable, we suggest either using config file or params.".

(** The body of the loop over the implicit candidates. *)
Definition load_implicit (config_file : string) : M unit :=
  if exists_ config_file && negb (isdir config_file) then
    try_except (load_config config_file)
      (fun e => fail_json ("The config file " +:+ config_file
                           +:+ " is not properly formatted " +:+ e))
  else mret tt.

(** The part of [load_config_files] for [tower_config_file]. *)
Definition load_explicit (params : Params) : M unit :=
  match tower_config_file params with
  | Some config_path =>
      if nonempty config_path then
        let duplicated_params := duplicated_params params in
        (match duplicated_params with
         | [] => mret tt
         | _ :: _ => warn (duplicate_warning duplicated_params)
         end);;
        try_except (load_config config_path) (fun cfe => fail_json cfe)
      else mret tt
  | None => mret tt
  end.

Definition load_config_files (params : Params) : M unit :=
  for_each (config_files expanduser_home getcwd) load_implicit;;
  load_explicit params.

(** Lines 55 to 64 of [__init__]: the directly supplied parameters. *)
Definition direct_overrides (params : Params) (self : TowerModule) : TowerModule :=
  let self :=
    match tower_host params with
    | Some v => if nonempty v then setattr self "host" (VStr v) else self
    | None => self
    end in
  let self :=
    match tower_username params with
    | Some v => if nonempty v then setattr self "username" (VStr v) else self
    | None => self
    end in
  let self :=
    match tower_password params with
    | Some v => if nonempty v then setattr self "password" (VStr v) else self
    | None => self
    end in
  let self :=
    match validate_certs params with
    | Some b => setattr self "verify_ssl" (VBool b)
    | None => self
    end in
  match tower_oauthtoken params with
  | Some v => if nonempty v then setattr self "oauth_token" (VStr v) else self
  | None => self
  end.

(** Configuration resolution: lines 52 to 64 of [__init__]. The lines
    after them (URL scheme, host name lookup) are not part of it. *)
Definition resolve (params : Params) : M unit :=
  load_config_files params;;
  modify (direct_overrides params).

End Resolution.

(** * A reader for INI text

    The part of Python's [configparser.ConfigParser] (default options:
    delimiters [=] and [:], full-line comments [#] and [;], strict, empty
    lines allowed in values) that [load_config] relies on: [read_file] on
    one text and [get]. Values that contain [%] are outside the modelled
    fragment (the library would run its interpolation on them); [get]
    reports them as raising. *)

Module configparser.

Definition LF : ascii := ascii_of_nat 10.

(** [str.isspace] on ASCII *)
Definition is_space (c : ascii) : bool :=
  let n := nat_of_ascii c in
  ((9 <=? n)%nat && (n <=? 13)%nat) || ((28 <=? n)%nat && (n <=? 32)%nat).

Fixpoint lstrip (s : string) : string :=
  match s with
  | String c s' => if is_space c then lstrip s' else s
  | EmptyString => EmptyString
  end.

Fixpoint rstrip (s : string) : string :=
  match s with
  | EmptyString => EmptyString
  | String c s' =>
      match rstrip s' with
      | EmptyString => if is_space c then EmptyString else String c EmptyString
      | r => String c r
      end
  end.

Definition strip (s : string) : string := rstrip (lstrip s).

(** Position of the first character that is not white space. *)
Fixpoint indent (s : string) : nat :=
  match s with
  | String c s' => if is_space c then S (indent s') else 0
  | EmptyString => 0
  end.

(** The lines of a text, without their line ends. *)
Fixpoint lines_from (cur : string) (s : string) : list string :=
  match s with
  | EmptyString => match cur with EmptyString => [] | _ => [cur] end
  | String c s' =>
      if Ascii.eqb c LF then cur :: lines_from EmptyString s'
      else lines_from (cur +:+ String c EmptyString) s'
  end.

Definition splitlines (s : string) : list string := lines_from EmptyString s.

(** The text before and after the first [=] or [:]. *)
Fixpoint partition_delim (s : string) : option (string * string) :=
  match s with
  | EmptyString => None
  | String c s' =>
      if Ascii.eqb c "="%char || Ascii.eqb c ":"%char then Some (EmptyString, s')
      else match partition_delim s' with
           | Some (k, v) => Some (String c k, v)
           | None => None
           end
  end.

(** The text up to the last [c] (with it), and the text after it. *)
Fixpoint rpartition (c : ascii) (p : string) : string * string :=
  match p with
  | EmptyString => (EmptyString, EmptyString)
  | String a p' =>
      let '(h, t) := rpartition c p' in
      match h with
      | String _ _ => (String a h, t)
      | EmptyString =>
          if Ascii.eqb a c then (String a EmptyString, t)
          else (EmptyString, String a t)
      end
  end.

Fixpoint drop_last (s : string) : string :=
  match s with
  | EmptyString => EmptyString
  | String _ EmptyString => EmptyString
  | String c s' => String c (drop_last s')
  end.

(** [SECTCRE.match(value)], the pattern being [\[(?P<header>.+)\]]: the
    header runs from the opening bracket to the last closing bracket of
    the line, and what follows that bracket is ignored. *)
Definition section_header (value : string) : option string :=
  match value with
  | String "[" rest =>
      match drop_last (rpartition "]" rest).1 with
      | EmptyString => None
      | header => Some header
      end
  | _ => None
  end.

Definition options : Type := list (string * list string).

Fixpoint lookup {V} (k : string) (l : list (string * V)) : option V :=
  match l with
  | [] => None
  | (k', v) :: l' => if String.eqb k k' then Some v else lookup k l'
  end.

Fixpoint update {V} (k : string) (f : V -> V) (l : list (string * V))
    : list (string * V) :=
  match l with
  | [] => []
  | (k', v) :: l' =>
      if String.eqb k k' then (k', f v) :: l' else (k', v) :: update k f l'
  end.

(** The parser while it reads: the sections in the order met (the
    default section among them, under its name), the section and the
    option being filled (an empty option name counts as none), the
    indentation of the last option or header line, and whether a line was
    rejected. *)
Record reader : Type := mkReader {
  sections : list (string * options);
  cursect : option string;
  optname : option string;
  indent_level : nat;
  parsing_error : bool
}.

Definition new_reader : reader :=
  {| sections := []; cursect := None; optname := None; indent_level := 0;
     parsing_error := false |}.

Definition is_comment (line : string) : bool :=
  match strip line with
  | String c _ => Ascii.eqb c "#"%char || Ascii.eqb c ";"%char
  | EmptyString => false
  end.

Definition append_line (r : reader) (sect opt value : string) : reader :=
  {| sections :=
       update sect (update opt (fun ls => (ls ++ [value])%list)) (sections r);
     cursect := cursect r; optname := optname r;
     indent_level := indent_level r; parsing_error := parsing_error r |}.

(** One turn of the loop of [_read]; [inl] is an exception raised at
    once. *)
Definition read_line (r : reader) (line : string) : string + reader :=
  if is_comment line then inr r
  else
    let value := strip line in
    match value with
    | EmptyString =>
        match cursect r, optname r with
        | Some sect, Some opt => inr (append_line r sect opt EmptyString)
        | _, _ => inr r
        end
    | String _ _ =>
        let continuation :=
          match cursect r, optname r with
          | Some sect, Some opt =>
              if (indent_level r <? indent line)%nat then
                Some (append_line r sect opt value)
              else None
          | _, _ => None
          end in
        match continuation with
        | Some r' => inr r'
        | None =>
            let level := indent line in
            match section_header value with
            | Some sectname =>
                match lookup sectname (sections r) with
                | Some _ =>
                    if String.eqb sectname "DEFAULT" then
                      inr (mkReader (sections r) (Some sectname) None level
                             (parsing_error r))
                    else inl "DuplicateSectionError"
                | None =>
                    inr (mkReader (sections r ++ [(sectname, [])])%list
                           (Some sectname) None level (parsing_error r))
                end
            | None =>
                match cursect r with
                | None => inl "MissingSectionHeaderError"
                | Some sect =>
                    match partition_delim value with
                    | Some (k, v) =>
                        let opt := lower (rstrip k) in
                        let bad := negb (nonempty opt) in
                        match lookup sect (sections r) with
                        | Some opts =>
                            match lookup opt opts with
                            | Some _ => inl "DuplicateOptionError"
                            | None =>
                                inr (mkReader
                                       (update sect
                                          (fun os => (os ++ [(opt, [strip v])])%list)
                                          (sections r))
                                       (Some sect)
                                       (if bad then None else Some opt) level
                                       (parsing_error r || bad))
                            end
                        | None => inl "KeyError"
                        end
                    | None =>
                        inr (mkReader (sections r) (cursect r) (optname r) level true)
                    end
                end
            end
        end
    end.

Fixpoint read_lines (r : reader) (ls : list string) : string + reader :=
  match ls with
  | [] => inr r
  | line :: ls' =>
      match read_line r line with
      | inl e => inl e
      | inr r' => read_lines r' ls'
      end
  end.

(** A filled parser: every value is its lines joined by line feeds, with
    trailing white space removed. *)
Definition parser : Type := list (string * list (string * string)).

Definition join_lines (ls : list string) : string :=
  rstrip (String.concat (String LF EmptyString) ls).

Definition read_file (text : string) : string + parser :=
  match read_lines new_reader (splitlines text) with
  | inl e => inl e
  | inr r =>
      if parsing_error r then inl "ParsingError"
      else inr (List.map (fun '(name, opts) =>
                  (name, List.map (fun '(k, ls) => (k, join_lines ls)) opts))
                (sections r))
  end.

(** [config.get(section, option)]: the section's own options first, the
    default section's after them. *)
Definition get (config : parser) (section option : string) : get_result :=
  match lookup section config with
  | None =>
      if String.eqb section "DEFAULT" then NoOptionError
      else GetRaises "NoSectionError"
  | Some opts =>
      let found :=
        match lookup (lower option) opts with
        | Some v => Some v
        | None =>
            match lookup "DEFAULT" config with
            | Some defaults => lookup (lower option) defaults
            | None => None
            end
        end in
      match found with
      | None => NoOptionError
      | Some v =>
          if contains "%" v then GetRaises "InterpolationSyntaxError"
          else GetValue v
      end
  end.

End configparser.

(** * Absolute paths by components *)

(** An absolute, normalised working directory is given by its components:
    [[]] is the root, [["a"; "b"]] is [/a/b]. *)
Fixpoint no_sep (s : string) : bool :=
  match s with
  | EmptyString => true
  | String c s' => negb (Ascii.eqb c posixpath.sep) && no_sep s'
  end.

Definition component (c : string) : Prop := nonempty c = true /\ no_sep c = true.

Fixpoint components_path (cs : list string) : string :=
  match cs with
  | [] => EmptyString
  | c :: cs' => "/" +:+ c +:+ components_path cs'
  end.

Definition abs_path (cs : list string) : string :=
  match cs with
  | [] => "/"
  | _ :: _ => components_path cs
  end.

(** The directories strictly above [abs_path cs], the root first. *)
Definition ancestors (cs : list string) : list string :=
  List.map (fun i => abs_path (take i cs)) (seq 0 (List.length cs)).

(** * Vocabulary of the properties *)

(** What the last loop of [load_config] assigns to the setting [name] for
    the entry [v] of the file: the entry itself, converted for
    [verify_ssl]. *)
Definition setting_value (name : string) (v : pyval) : exn + pyval :=
  if String.eqb name "verify_ssl" then
    match v with
    | VStr s => strtobool s
    | _ => inr (VBool (truthy v))
    end
  else inr v.

(** What lines 55 to 64 assign to the setting [name], if anything. *)
Definition direct_value (params : Params) (name : string) : option pyval :=
  let str (o : option string) :=
    match o with
    | Some v => if nonempty v then Some (VStr v) else None
    | None => None
    end in
  if String.eqb name "host" then str (tower_host params)
  else if String.eqb name "username" then str (tower_username params)
  else if String.eqb name "password" then str (tower_password params)
  else if String.eqb name "verify_ssl" then VBool <$> validate_certs params
  else if String.eqb name "oauth_token" then str (tower_oauthtoken params)
  else None.

(** A boolean, or one of the integers that [strtobool] returns. *)
Definition is_truth_value (v : pyval) : bool :=
  match v with
  | VBool _ => true
  | VInt n => (n =? 0)%Z || (n =? 1)%Z
  | _ => false
  end.

(** An exception that comes from a [ConfigFileException]: the exception
    itself, or the [fail_json] that its handlers turn it into. *)
Definition config_file_error (e : exn) : bool :=
  match e with
  | ConfigFileException _ | FailJson _ => true
  | ValueError _ | ReadError _ => false
  end.



(** The files that resolution loads: the implicit candidates, then the
    explicit file. *)
Definition sources `{env : Env} (params : Params) : list string :=
  (config_files expanduser_home getcwd
   ++ match tower_config_file params with
      | Some config_path => [config_path]
      | None => []
      end)%list.

(** The file at [path], if it is there and parses, has no entry for
    [name]. *)
Definition absent_from_file `{env : Env} (name path : string) : Prop :=
  forall content config_data,
    stat path = File true content ->
    parse_config content = inr config_data ->
    config_data !! name = None.

Definition absent_from_every_source `{env : Env} (params : Params)
    (name : string) : Prop :=
  direct_value params name = None
  /\ forall path, In path (sources params) -> absent_from_file name path.

(** A string parameter with the empty string taken for [None]. *)
Definition blank_as_none (o : option string) : option string :=
  match o with
  | Some v => if nonempty v then Some v else None
  | None => None
  end.

(** The parameters with every empty string taken for [None]. *)
Definition normalize (params : Params) : Params :=
  {| tower_host := blank_as_none (tower_host params);
     tower_username := blank_as_none (tower_username params);
     tower_password := blank_as_none (tower_password params);
     validate_certs := validate_certs params;
     tower_oauthtoken := blank_as_none (tower_oauthtoken params);
     tower_config_file := tower_config_file params |}.

(** * An environment for the examples *)

(** The file system is the list [files] (any other path is missing), the
    YAML loader answers from the list [documents] (the documents of the
    example with what the loader returns for each; it rejects any other
    text), and the INI parser is the reader above. *)
Definition example_env (home cwd : string) (files : list (string * fnode))
    (documents : list (string * yaml_result)) : Env :=
  {| expanduser_home := home;
     getcwd := cwd;
     stat := fun path => default Missing (configparser.lookup path files);
     yaml_load := fun text =>
       default (YAMLError "no such document") (configparser.lookup text documents);
     ConfigParser := configparser.parser;
     read_file := configparser.read_file;
     get := configparser.get |}.

Definition LF : string := String configparser.LF EmptyString.

(** * The rest of [__init__]: the validation of the host *)

(** [re.match('^https{0,1}://', host)] on a string. *)
Definition has_scheme (host : string) : bool :=
  String.prefix "http://" host || String.prefix "https://" host.

(** Lines 67 and 68 on a string host:
<<
    if not re.match('^https{0,1}://', self.host):
        self.host = "https://{0}".format(self.host)
>> *)
Definition normalize_host (h : string) : string :=
  if has_scheme h then h else "https://" +:+ h.

(** [netloc.split(':')[0]]: the text before the first colon. *)
Fixpoint before_colon (s : string) : string :=
  match s with
  | EmptyString => EmptyString
  | String c s' =>
      if Ascii.eqb c ":"%char then EmptyString else String c (before_colon s')
  end.

Fixpoint has_colon (s : string) : bool :=
  match s with
  | EmptyString => false
  | String c s' => Ascii.eqb c ":"%char || has_colon s'
  end.

(** The network libraries that [__init__] calls. [urlparse h] is the
    message of the exception that [urllib.parse.urlparse(h)] raises, or
    the [netloc] of its result (the only part that is read);
    [gethostbyname name] is the message of the exception that
    [socket.gethostbyname(name)] raises, if it raises. *)
Class Net : Type := {
  urlparse : string -> string + string;
  gethostbyname : string -> option string
}.

(** How the construction of the module ends: with the module and the
    [netloc] of [self.url], with one of the exceptions of resolution or a
    [fail_json], or with the [TypeError] that [re.match] raises for a host
    that is not a string. *)
Inductive init_outcome : Type :=
| Constructed (self : TowerModule) (netloc : string)
| Failed (e : exn) (self : TowerModule)
| TypeErrorRaised (self : TowerModule).

(** Lines 66 to 81 of [__init__]. *)
Definition validate_host `{net : Net} (self : TowerModule) : init_outcome :=
  match host self with
  | VStr h =>
      let self :=
        if negb (has_scheme h) then setattr self "host" (VStr ("https://" +:+ h))
        else self in
      let h := normalize_host h in
      match urlparse h with
      | inl e =>
          Failed (FailJson ("Unable to parse tower_host as a URL (" +:+ e
                            +:+ "): " +:+ h)) self
      | inr netloc =>
          let hostname := before_colon netloc in
          match gethostbyname hostname with
          | Some e =>
              Failed (FailJson ("Unable to resolve tower_host (" +:+ e
                                +:+ "): " +:+ hostname)) self
          | None => Constructed self netloc
          end
      end
  | _ => TypeErrorRaised self
  end.

(** [TowerModule.__init__] from line 52 on, for a module that still has
    the class defaults. *)
Definition init `{env : Env} `{net : Net} (params : Params) : init_outcome :=
  match resolve params class_defaults with
  | Ok _ self => validate_host self
  | Raise e self => Failed e self
  end.

(** * Vocabulary of the further properties *)

(** The state in which a method call ends, and its exception if any. *)
Definition final_state {A} (r : result A) : TowerModule :=
  match r with
  | Ok _ self => self
  | Raise _ self => self
  end.

Definition error_of {A} (r : result A) : option exn :=
  match r with
  | Ok _ _ => None
  | Raise e _ => Some e
  end.

(** The paths that [load_config_files] may hand to [load_config], in the
    order of the calls: the implicit candidates, then the explicit file
    when its path is not empty. *)
Definition loaded_paths `{env : Env} (params : Params) : list string :=
  (config_files expanduser_home getcwd
   ++ match tower_config_file params with
      | Some config_path => if nonempty config_path then [config_path] else []
      | None => []
      end)%list.

(** What the file at [path] assigns to the setting [name] when it is
    loaded: nothing when there is no readable regular file, when the text
    does not parse or has no entry for [name]. *)
Definition file_value `{env : Env} (path name : string) : option pyval :=
  match stat path with
  | File true content =>
      match parse_config content with
      | inr config_data =>
          match config_data !! name with
          | Some v =>
              match setting_value name v with
              | inr x => Some x
              | inl _ => None
              end
          | None => None
          end
      | inl _ => None
      end
  | _ => None
  end.

(** The value of [name] after the files at [paths] were loaded in order
    over the value [v]: the last file that has the setting wins. *)
Definition last_value `{env : Env} (paths : list string) (name : string)
    (v : pyval) : pyval :=
  fold_left (fun acc path => default acc (file_value path name)) paths v.

(** The warning that [load_config_files] emits for [params], if any. *)
Definition expected_warnings (params : Params) : list string :=
  match tower_config_file params with
  | Some config_path =>
      if nonempty config_path then
        match duplicated_params params with
        | [] => []
        | _ :: _ => [duplicate_warning (duplicated_params params)]
        end
      else []
  | None => []
  end.

(** The messages of the [ConfigFileException]s that [load_config] raises. *)
Definition config_file_message (msg : string) : Prop :=
  msg = "The specified config file does not exist"
  \/ msg = "The specified config file cannot be read"
  \/ (exists cause,
        msg = "An unknown exception occured trying to ini load config file: " +:+ cause)
  \/ (exists cause,
        msg = "An unknown exception occured trying to load config file: " +:+ cause).

(** A table for the network libraries of the examples: the URLs that
    parse, with their [netloc], and the names that resolve. *)
Definition example_net (urls : list (string * string)) (names : list string) : Net :=
  {| urlparse := fun h =>
       match configparser.lookup h urls with
       | Some netloc => inr netloc
       | None => inl "Invalid IPv6 URL"
       end;
     gethostbyname := fun name =>
       if str_in name names then None
       else Some "[Errno -2] Name or service not known" |}.

(* ================================================================= *)
(** * Properties *)

(** ** The library functions on examples *)

Example split_examples :
  posixpath.split "/a/b/c" = ("/a/b", "c")
  /\ posixpath.split "/a" = ("/", "a")
  /\ posixpath.split "/" = ("/", "")
  /\ posixpath.split "a//b" = ("a", "b")
  /\ posixpath.split "rel" = ("", "rel")
  /\ posixpath.split "//x" = ("//", "x").
Proof. repeat split; reflexivity. Qed.

Example join_examples :
  posixpath.join "/a/b" "tower_cli.cfg" = "/a/b/tower_cli.cfg"
  /\ posixpath.join "/" ".tower_cli.cfg" = "/.tower_cli.cfg"
  /\ posixpath.join "" "x" = "x"
  /\ posixpath.join "/a" "/etc" = "/etc".
Proof. repeat split; reflexivity. Qed.

Example strtobool_examples :
  strtobool "no" = inr (VInt 0)
  /\ strtobool "No" = inr (VInt 0)
  /\ strtobool "YES" = inr (VInt 1)
  /\ strtobool "True" = inr (VInt 1)
  /\ strtobool "0" = inr (VInt 0)
  /\ strtobool "maybe" = inl (ValueError "invalid truth value 'maybe'").
Proof. repeat split; reflexivity. Qed.

Example read_file_examples :
  configparser.read_file ("[general]" +:+ LF +:+ "host = h" +:+ LF +:+ "Username: u")
  = inr [("general", [("host", "h"); ("username", "u")])]
  /\ configparser.read_file "[general]host = h" = inr [("general", [])]
  /\ configparser.read_file "host = h" = inl "MissingSectionHeaderError"
  /\ configparser.read_file ("[general]" +:+ LF +:+ "host") = inl "ParsingError".
Proof. repeat split; vm_compute; reflexivity. Qed.

(** No file exists and the caller supplies the host only: the host is
    carried through as it was given, the other fields keep their
    defaults. *)
Example resolve_host_only :
  let env := example_env "/home/u" "/a/b" [] [] in
  let params :=
    {| tower_host := Some "controller.example.com"; tower_username := None;
       tower_password := None; validate_certs := None; tower_oauthtoken := None;
       tower_config_file := None |} in
  resolve params class_defaults
  = Ok tt {| host := VStr "controller.example.com"; username := VNone;
             password := VNone; verify_ssl := VBool true; oauth_token := VNone;
             warnings := [] |}.
Proof. vm_compute. reflexivity. Qed.

(** ** The order of the implicit config files *)

Lemma walk_up_step local_dir files :
  walk_up local_dir files =
  match (posixpath.split local_dir).2 with
  | EmptyString => files
  | String _ _ =>
      walk_up (posixpath.split local_dir).1
        (py_insert 2 (posixpath.join (posixpath.split local_dir).1 dot_config_name) files)
  end.
Proof.
  funelim (walk_up local_dir files);
    match goal with E : (posixpath.split _).2 = _ |- _ => rewrite E end;
    reflexivity.
Qed.

Lemma str_app_cons a (s t : string) : String a s +:+ t = String a (s +:+ t).
Proof. reflexivity. Qed.

Lemma str_app_nil_l (t : string) : "" +:+ t = t.
Proof. reflexivity. Qed.

Lemma str_app_nil_r (s : string) : s +:+ "" = s.
Proof.
  induction s as [|a s IH]; [done|]. by rewrite str_app_cons, IH.
Qed.

Lemma str_app_assoc (a b c : string) : (a +:+ b) +:+ c = a +:+ (b +:+ c).
Proof.
  induction a as [|x a IH]; [done|]. by rewrite !str_app_cons, IH.
Qed.

Lemma rpartition_no_sep c :
  no_sep c = true -> posixpath.rpartition c = (EmptyString, c).
Proof.
  induction c as [|a c IH]; simpl; [done|].
  intros [Ha Hc]%andb_true_iff. rewrite (IH Hc).
  destruct (Ascii.eqb a posixpath.sep); [done | reflexivity].
Qed.

Lemma rpartition_last s c :
  no_sep c = true ->
  posixpath.rpartition (s +:+ "/" +:+ c) = (s +:+ "/", c).
Proof.
  intros Hc. induction s as [|a s IH].
  - rewrite str_app_nil_l, str_app_cons, str_app_nil_l.
    cbn [posixpath.rpartition]. by rewrite (rpartition_no_sep c Hc).
  - rewrite str_app_cons. cbn [posixpath.rpartition]. rewrite IH.
    destruct s; reflexivity.
Qed.

Lemma rstrip_sep_app_sep s :
  posixpath.rstrip_sep (s +:+ "/") = posixpath.rstrip_sep s.
Proof.
  induction s as [|a s IH]; [reflexivity|].
  rewrite str_app_cons. cbn [posixpath.rstrip_sep]. by rewrite IH.
Qed.

Lemma rstrip_sep_fixed_app a b :
  nonempty b = true -> posixpath.rstrip_sep b = b ->
  posixpath.rstrip_sep (a +:+ b) = a +:+ b.
Proof.
  intros Hb Hfix. induction a as [|x a IH]; [done|].
  rewrite str_app_cons. cbn [posixpath.rstrip_sep]. rewrite IH.
  destruct a, b; done.
Qed.

Lemma rstrip_sep_no_sep c : no_sep c = true -> posixpath.rstrip_sep c = c.
Proof.
  induction c as [|a c IH]; [done|].
  cbn [no_sep posixpath.rstrip_sep]. intros [Ha Hc]%andb_true_iff.
  rewrite (IH Hc). destruct c; [|done].
  by destruct (Ascii.eqb a posixpath.sep).
Qed.

Lemma components_path_snoc cs c :
  components_path (cs ++ [c]) = components_path cs +:+ "/" +:+ c.
Proof.
  induction cs as [|x cs IH].
  - cbn [app components_path]. by rewrite str_app_nil_r.
  - cbn [app components_path]. rewrite IH.
    by rewrite !str_app_assoc.
Qed.

Lemma components_path_rstrip cs :
  Forall component cs ->
  posixpath.rstrip_sep (components_path cs) = components_path cs.
Proof.
  induction 1 as [|c cs [Hne Hc] Hcs IH]; [done|].
  cbn [components_path]. destruct cs as [|c' cs'].
  - cbn [components_path]. rewrite str_app_nil_r.
    apply (rstrip_sep_fixed_app "/" c); [done | by apply rstrip_sep_no_sep].
  - rewrite <- str_app_assoc.
    apply rstrip_sep_fixed_app; [reflexivity | exact IH].
Qed.

Lemma components_path_not_all_seps c cs :
  component c -> posixpath.all_seps (components_path (c :: cs) +:+ "/") = false.
Proof.
  intros [Hne Hc]. destruct c as [|a c]; [done|].
  cbn [no_sep] in Hc. apply andb_true_iff in Hc as [Ha _].
  cbn [components_path]. rewrite !str_app_cons, str_app_nil_l, !str_app_cons.
  cbn [posixpath.all_seps].
  destruct (Ascii.eqb a posixpath.sep); [done | reflexivity].
Qed.

(** [split] takes the last component off an absolute path. *)
Lemma split_abs_path_snoc cs c :
  Forall component cs -> component c ->
  posixpath.split (abs_path (cs ++ [c])) = (abs_path cs, c).
Proof.
  intros Hcs [Hne Hc].
  assert (abs_path (cs ++ [c]) = components_path cs +:+ "/" +:+ c) as ->.
  { rewrite <- components_path_snoc. by destruct cs. }
  unfold posixpath.split. rewrite (rpartition_last _ c Hc).
  destruct cs as [|x cs]; [reflexivity|].
  inversion Hcs as [|? ? Hx Hcs']; subst.
  rewrite components_path_not_all_seps by done.
  replace (nonempty (components_path (x :: cs) +:+ "/")) with true by reflexivity.
  cbn [andb negb]. rewrite rstrip_sep_app_sep.
  by rewrite components_path_rstrip.
Qed.

Lemma rstrip_sep_fixed_endswith s :
  posixpath.rstrip_sep s = s -> posixpath.endswith_sep s = false.
Proof.
  induction s as [|a s IH]; [done|].
  cbn [posixpath.rstrip_sep posixpath.endswith_sep].
  destruct s as [|b s].
  - cbn [posixpath.rstrip_sep]. by destruct (Ascii.eqb a posixpath.sep).
  - destruct (posixpath.rstrip_sep (String b s)) as [|x r] eqn:E.
    + by destruct (Ascii.eqb a posixpath.sep).
    + intros [= Hx Hr]. apply IH. by rewrite Hx, Hr.
Qed.

Lemma join_abs_path cs name :
  posixpath.startswith_sep name = false ->
  Forall component cs ->
  posixpath.join (abs_path cs) name = components_path cs +:+ "/" +:+ name.
Proof.
  intros Hname Hcs. unfold posixpath.join. rewrite Hname.
  destruct cs as [|c cs]; [reflexivity|].
  replace (nonempty (abs_path (c :: cs))) with true by reflexivity.
  cbn [negb orb abs_path].
  by rewrite (rstrip_sep_fixed_endswith _ (components_path_rstrip _ Hcs)).
Qed.

Lemma ancestors_snoc cs c : ancestors (cs ++ [c]) = (ancestors cs ++ [abs_path cs])%list.
Proof.
  unfold ancestors. rewrite length_app, Nat.add_1_r, seq_S, map_app.
  cbn [List.map plus]. rewrite take_app_length. f_equal.
  apply map_ext_in. intros i [_ Hi]%in_seq.
  by rewrite take_app_le by lia.
Qed.

Lemma walk_up_abs_path cs files :
  Forall component cs -> 2 <= List.length files ->
  walk_up (abs_path cs) files
  = (take 2 files
     ++ List.map (fun d => posixpath.join d dot_config_name) (ancestors cs)
     ++ drop 2 files)%list.
Proof.
  revert files. induction cs as [|c cs IH] using rev_ind; intros files Hcs Hlen.
  - rewrite walk_up_step. cbn. by rewrite take_drop.
  - apply Forall_app in Hcs as [Hcs Hc]. inversion Hc as [|? ? Hc' _]; subst.
    rewrite walk_up_step, split_abs_path_snoc by done.
    cbn [fst snd]. destruct Hc' as [Hne Hsep].
    destruct c as [|a c]; [done|].
    destruct files as [|f1 [|f2 files]]; cbn in Hlen; try lia.
    rewrite IH by (done || cbn; lia).
    rewrite ancestors_snoc, map_app. cbn. by rewrite <- app_assoc.
Qed.

(** ** The monad and the loader *)

Section Loader.

Context `{env : Env}.

Lemma load_config_unfold config_path self :
  load_config config_path self =
  match stat config_path with
  | File true content =>
      match parse_config content with
      | inl e => Raise e self
      | inr config_data =>
          for_each honorred_settings (apply_setting config_data) self
      end
  | File false _ =>
      Raise (ConfigFileException "The specified config file cannot be read") self
  | Broken error => Raise (ReadError error) self
  | _ => Raise (ConfigFileException "The specified config file does not exist") self
  end.
Proof.
  unfold load_config, isfile, access_R_OK, read.
  destruct (stat config_path) as [| | |[] content|error]; try reflexivity.
  cbn. unfold mbind, M_bind, lift, mret, M_ret. by destruct (parse_config content).
Qed.

Lemma load_ini_raises config_string e :
  load_ini config_string = inl e -> exists msg, e = ConfigFileException msg.
Proof.
  unfold load_ini. destruct (read_file _) as [msg|config]; [intros [= <-]; eauto|].
  destruct (ini_settings _ _ _); intros [= <-]; eauto.
Qed.

Lemma parse_config_raises config_string e :
  parse_config config_string = inl e -> exists msg, e = ConfigFileException msg.
Proof.
  unfold parse_config.
  destruct (yaml_load config_string); try done; eauto using load_ini_raises.
  intros [= <-]; eauto.
Qed.

Lemma strtobool_value s v :
  strtobool s = inr v -> v = VInt 0 \/ v = VInt 1.
Proof.
  unfold strtobool. repeat case_match; intros [= <-]; auto.
Qed.

Lemma strtobool_raises s e :
  strtobool s = inl e -> exists msg, e = ValueError msg.
Proof.
  unfold strtobool. repeat case_match; intros [= <-]; eauto.
Qed.

(** A load that ends normally has assigned every setting the file has,
    and nothing else. *)
Lemma apply_settings_ok config_data self self' :
  for_each honorred_settings (apply_setting config_data) self = Ok tt self' ->
  warnings self' = warnings self
  /\ forall name, In name honorred_settings ->
       match config_data !! name with
       | Some v => setting_value name v = inr (getattr self' name)
       | None => getattr self' name = getattr self name
       end.
Proof.
  destruct self as [h u p s o w].
  unfold honorred_settings, for_each, apply_setting, mbind, M_bind, modify, lift, mret, M_ret, raise.
  cbn.
  destruct (config_data !! "host") eqn:Eh, (config_data !! "username") eqn:Eu,
    (config_data !! "password") eqn:Ep, (config_data !! "verify_ssl") as [vs|] eqn:Es,
    (config_data !! "oauth_token") eqn:Eo;
    try (destruct vs as [| | |x|]; try destruct (strtobool x) eqn:Ex);
    cbn; intros [= <-]; (split; [reflexivity|]);
    intros name Hin; cbn in Hin;
    repeat (destruct Hin as [<-|Hin]); try done;
    rewrite ?Eh, ?Eu, ?Ep, ?Es, ?Eo; cbn; by rewrite ?Ex.
Qed.

End Loader.

Section Loops.

Context `{env : Env}.

(** A load that raises in its last loop raises the [ValueError] of
    [strtobool], after the settings before [verify_ssl] were assigned. *)
Lemma apply_settings_raise config_data self e self' :
  for_each honorred_settings (apply_setting config_data) self = Raise e self' ->
  exists s,
    config_data !! "verify_ssl" = Some (VStr s) /\ strtobool s = inl e
    /\ warnings self' = warnings self
    /\ verify_ssl self' = verify_ssl self
    /\ oauth_token self' = oauth_token self
    /\ forall name, In name ["host"; "username"; "password"] ->
         getattr self' name = default (getattr self name) (config_data !! name).
Proof.
  destruct self as [h u p s o w].
  unfold honorred_settings, for_each, apply_setting, mbind, M_bind, modify, lift, mret, M_ret, raise.
  cbn.
  destruct (config_data !! "host") eqn:Eh, (config_data !! "username") eqn:Eu,
    (config_data !! "password") eqn:Ep, (config_data !! "verify_ssl") as [vs|] eqn:Es,
    (config_data !! "oauth_token") eqn:Eo;
    try (destruct vs as [| | |x|]; try destruct (strtobool x) eqn:Ex);
    cbn; intros [= <- <-]; eexists; (split; [reflexivity|]);
    (split; [exact Ex|]); repeat (split; [reflexivity|]);
    intros name Hin; cbn in Hin;
    repeat (destruct Hin as [<-|Hin]); try done;
    by rewrite ?Eh, ?Eu, ?Ep.
Qed.

Lemma load_config_ok config_path self self' :
  load_config config_path self = Ok tt self' ->
  exists content config_data,
    stat config_path = File true content
    /\ parse_config content = inr config_data
    /\ warnings self' = warnings self
    /\ forall name, In name honorred_settings ->
         match config_data !! name with
         | Some v => setting_value name v = inr (getattr self' name)
         | None => getattr self' name = getattr self name
         end.
Proof.
  rewrite load_config_unfold.
  destruct (stat config_path) as [| | |[] content|error]; try done.
  destruct (parse_config content) as [e|config_data] eqn:Ep; [done|].
  intros [Hw Hs]%apply_settings_ok. eauto 10.
Qed.

(** [load_config] raises a [ConfigFileException] or the exception of the
    read before it assigns anything, and never leaves through
    [fail_json]. *)
Lemma load_config_raise config_path self e self' :
  load_config config_path self = Raise e self' ->
  match e with
  | ConfigFileException _ | ReadError _ => self' = self
  | ValueError _ => True
  | FailJson _ => False
  end.
Proof.
  rewrite load_config_unfold.
  destruct (stat config_path) as [| | |[] content|error]; try (by intros [= <- <-]).
  destruct (parse_config content) as [e'|config_data] eqn:Ep.
  - apply parse_config_raises in Ep as [msg ->]. by intros [= <- <-].
  - intros (s & _ & [msg ->]%strtobool_raises & _)%apply_settings_raise. done.
Qed.


Lemma load_implicit_unfold config_file self :
  load_implicit config_file self =
  if exists_ config_file && negb (isdir config_file) then
    match load_config config_file self with
    | Raise (ConfigFileException msg) self' =>
        Raise (FailJson ("The config file " +:+ config_file
                         +:+ " is not properly formatted " +:+ msg)) self'
    | r => r
    end
  else Ok tt self.
Proof.
  unfold load_implicit, try_except, fail_json, raise.
  destruct (exists_ config_file && negb (isdir config_file)); [|done].
  by destruct (load_config config_file self) as [|[]].
Qed.

Lemma load_implicit_skips config_file self :
  stat config_file = Missing \/ stat config_file = Directory ->
  load_implicit config_file self = Ok tt self.
Proof.
  rewrite load_implicit_unfold. unfold exists_, isdir.
  by intros [-> | ->].
Qed.

Lemma load_implicit_ok config_file self self' :
  load_implicit config_file self = Ok tt self' ->
  self' = self \/ load_config config_file self = Ok tt self'.
Proof.
  rewrite load_implicit_unfold.
  destruct (exists_ config_file && negb (isdir config_file)).
  - destruct (load_config config_file self) as [[] ?|[] ?]; try done.
    intros [= <-]. by right.
  - intros [= <-]. by left.
Qed.

Lemma for_each_ok_inv {A} (P : TowerModule -> Prop) (l : list A) body self self' :
  (forall x s s', In x l -> P s -> body x s = Ok tt s' -> P s') ->
  P self -> for_each l body self = Ok tt self' -> P self'.
Proof.
  revert self. induction l as [|x l IH]; intros self Hbody HP.
  - by intros [= <-].
  - cbn [for_each]. unfold mbind, M_bind.
    destruct (body x self) as [[] s1|] eqn:Hx; [|done].
    apply IH; [intros; eapply Hbody; eauto; by right|].
    eapply Hbody; eauto. by left.
Qed.

Lemma for_each_must_raise {A} (l : list A) body x self :
  In x l -> (forall s, exists e s', body x s = Raise e s') ->
  exists e s', for_each l body self = Raise e s'.
Proof.
  intros Hin Hx. revert self. induction l as [|y l IH]; intros self; [done|].
  cbn [for_each]. unfold mbind, M_bind. destruct Hin as [->|Hin].
  - destruct (Hx self) as (e & s' & ->). eauto.
  - destruct (body y self) as [[] s1|e s1]; [by apply IH | eauto].
Qed.

Lemma for_each_skip_all {A} (l : list A) body self :
  (forall x s, In x l -> body x s = Ok tt s) -> for_each l body self = Ok tt self.
Proof.
  induction l as [|x l IH]; intros Hbody; [done|].
  cbn [for_each]. unfold mbind, M_bind. rewrite Hbody by (by left).
  apply IH. intros; apply Hbody; by right.
Qed.

Lemma getattr_direct_overrides params self name :
  In name honorred_settings ->
  getattr (direct_overrides params self) name
  = default (getattr self name) (direct_value params name).
Proof.
  destruct self as [h u p s o w], params as [ph pu pp pv po pc].
  intros Hin; cbn in Hin. repeat (destruct Hin as [<-|Hin]); try done;
    unfold direct_overrides, direct_value; cbn;
    destruct ph as [[|]|], pu as [[|]|], pp as [[|]|], pv as [|], po as [[|]|];
    reflexivity.
Qed.

Lemma resolve_unfold params self :
  resolve params self =
  match for_each (config_files expanduser_home getcwd) load_implicit self with
  | Ok _ self0 =>
      match load_explicit params self0 with
      | Ok _ self1 => Ok tt (direct_overrides params self1)
      | Raise e self1 => Raise e self1
      end
  | Raise e self0 => Raise e self0
  end.
Proof.
  unfold resolve, load_config_files, mbind, M_bind, modify.
  destruct (for_each _ _ self) as [[] ?|]; [|done].
  by destruct (load_explicit params _) as [[] ?|].
Qed.

End Loops.

(** ** C1: the order of discovery *)

(** C1, as the code has it. For the working directory [/c1/.../cn] the
    implicit config files are, in the order in which they are loaded: the
    system file, the home file, one [.tower_cli.cfg] for every directory
    strictly above the working directory, from the file system root (whose
    file is among them) down to the parent of the working directory, and
    last the [tower_cli.cfg] (no leading dot) of the working directory.
    The working directory has no [.tower_cli.cfg] of its own in the list.
    [load_config_files] loads them in this order, then the explicit
    file. *)
Theorem config_files_order `{env : Env} (cs : list string) :
  getcwd = abs_path cs ->
  Forall component cs ->
  let candidates :=
    ("/etc/tower/tower_cli.cfg"
     :: posixpath.join expanduser_home ".tower_cli.cfg"
     :: List.map (fun i => components_path (take i cs) +:+ "/.tower_cli.cfg")
          (seq 0 (List.length cs))
     ++ [components_path cs +:+ "/tower_cli.cfg"])%list in
  config_files expanduser_home getcwd = candidates
  /\ forall params self,
       load_config_files params self
       = (for_each candidates load_implicit;; load_explicit params) self.
Proof.
  intros Hcwd Hcs candidates.
  assert (config_files expanduser_home getcwd = candidates) as Heq.
  { unfold config_files, candidates. rewrite Hcwd.
    rewrite walk_up_abs_path by (done || cbn; lia).
    cbn [take drop app]. do 2 f_equal.
    rewrite (join_abs_path cs config_name) by done.
    f_equal. unfold ancestors. rewrite map_map.
    apply map_ext_in. intros i [_ Hi]%in_seq.
    rewrite (join_abs_path (take i cs) dot_config_name); [done..|].
    by apply Forall_take. }
  split; [exact Heq|].
  intros params self. unfold load_config_files. by rewrite Heq.
Qed.

Lemma config_files_order_witness :
  let env := example_env "/home/u" "/a/b/c" [] [] in
  config_files expanduser_home getcwd
  = ["/etc/tower/tower_cli.cfg"; "/home/u/.tower_cli.cfg"; "/.tower_cli.cfg";
     "/a/.tower_cli.cfg"; "/a/b/.tower_cli.cfg"; "/a/b/c/tower_cli.cfg"].
Proof.
  intros env.
  refine (proj1 (@config_files_order env ["a"; "b"; "c"] eq_refl _)).
  repeat constructor.
Defined.

(** C1 as stated fails for the working directory [/a/b/c]: the list has
    no [/a/b/c/.tower_cli.cfg], and it has the root's [/.tower_cli.cfg]. *)
Lemma config_files_abc_counterexample :
  let files := config_files "/home/u" "/a/b/c" in
  files <> ["/etc/tower/tower_cli.cfg"; "/home/u/.tower_cli.cfg";
            "/a/.tower_cli.cfg"; "/a/b/.tower_cli.cfg"; "/a/b/c/.tower_cli.cfg";
            "/a/b/c/tower_cli.cfg"]
  /\ ~ In "/a/b/c/.tower_cli.cfg" files
  /\ In "/.tower_cli.cfg" files.
Proof.
  assert (config_files "/home/u" "/a/b/c"
          = ["/etc/tower/tower_cli.cfg"; "/home/u/.tower_cli.cfg"; "/.tower_cli.cfg";
             "/a/.tower_cli.cfg"; "/a/b/.tower_cli.cfg"; "/a/b/c/tower_cli.cfg"]) as ->
    by (vm_compute; reflexivity).
  split; [discriminate|]. split; [|cbn; tauto].
  cbn. intros H. repeat (destruct H as [H|H]; [discriminate H|]). exact H.
Qed.

(** ** C2: which files make resolution fail *)

Section Failures.

Context `{env : Env}.

Lemma load_explicit_unfold params self :
  load_explicit params self =
  match tower_config_file params with
  | Some config_path =>
      if nonempty config_path then
        let self1 :=
          match duplicated_params params with
          | [] => self
          | _ :: _ => add_warning (duplicate_warning (duplicated_params params)) self
          end in
        match load_config config_path self1 with
        | Raise (ConfigFileException msg) self' => Raise (FailJson msg) self'
        | r => r
        end
      else Ok tt self
  | None => Ok tt self
  end.
Proof.
  unfold load_explicit, try_except, fail_json, raise, warn, modify, mbind, M_bind.
  destruct (tower_config_file params) as [config_path|]; [|done].
  destruct (nonempty config_path); [|done].
  destruct (duplicated_params params); cbn;
    by match goal with |- context [load_config ?p ?s] =>
         destruct (load_config p s) as [[] ?|[] ?] end.
Qed.


Lemma for_each_raise {A} (l : list A) body self e self' :
  for_each l body self = Raise e self' ->
  exists x s, In x l /\ body x s = Raise e self'.
Proof.
  revert self. induction l as [|x l IH]; intros self; [done|].
  cbn [for_each]. unfold mbind, M_bind.
  destruct (body x self) as [[] s1|e1 s1] eqn:Hx.
  - intros (y & s & Hin & Hy)%IH. exists y, s. split; [by right | done].
  - intros [= <- <-]. exists x, self. split; [by left | done].
Qed.


End Failures.




(** ** C6: a rejected file assigns nothing *)

(** C6, as the code has it. A load that ends normally has assigned every
    recognised field of the file (and left the others alone); a load that
    ends with a [ConfigFileException] has assigned none, and the handlers
    of [load_config_files] turn it into [fail_json] without touching the
    module. [load_config] never calls [fail_json] itself. The claim says
    nothing of the fields after a load that ends with the [ValueError] of
    [strtobool]; a load that ends with the exception of the read has
    assigned nothing either. *)
Theorem load_config_all_or_nothing `{env : Env} (config_path : string)
    (self : TowerModule) :
  match load_config config_path self with
  | Ok _ self' =>
      exists content config_data,
        stat config_path = File true content
        /\ parse_config content = inr config_data
        /\ forall name, In name honorred_settings ->
             match config_data !! name with
             | Some v => setting_value name v = inr (getattr self' name)
             | None => getattr self' name = getattr self name
             end
  | Raise (ConfigFileException msg) self' =>
      self' = self
      /\ try_except (load_config config_path) fail_json self = Raise (FailJson msg) self
  | Raise (ValueError _) _ => True
  | Raise (FailJson _) _ => False
  | Raise (ReadError _) self' => self' = self
  end.
Proof.
  destruct (load_config config_path self) as [[] self'|e self'] eqn:Hload.
  - apply load_config_ok in Hload as (content & config_data & ? & ? & _ & ?).
    eauto.
  - apply load_config_raise in Hload as Hkind. destruct e; try done.
    subst self'. split; [done|]. unfold try_except. by rewrite Hload.
Qed.

(** C6 as stated fails for a mapping with a host and with a [verify_ssl]
    that [strtobool] rejects: the load fails, and the host of the file has
    been assigned. *)
Lemma load_config_partial_counterexample :
  let text := "host: tower.example.com" +:+ LF +:+ "verify_ssl: maybe" in
  let env :=
    example_env "/home/u" "/a"
      [("/etc/tower/tower_cli.cfg", File true text)]
      [(text, YamlDict {[ "host" := VStr "tower.example.com";
                          "verify_ssl" := VStr "maybe" ]})] in
  load_config "/etc/tower/tower_cli.cfg" class_defaults
  = Raise (ValueError "invalid truth value 'maybe'")
      {| host := VStr "tower.example.com"; username := VNone; password := VNone;
         verify_ssl := VBool true; oauth_token := VNone; warnings := [] |}
  /\ host class_defaults = VStr "127.0.0.1"
  /\ resolve no_params class_defaults
     = Raise (ValueError "invalid truth value 'maybe'")
         {| host := VStr "tower.example.com"; username := VNone; password := VNone;
            verify_ssl := VBool true; oauth_token := VNone; warnings := [] |}.
Proof.
  intros text env. split; [|split]; [|reflexivity|]; vm_compute; reflexivity.
Qed.

(** ** C3: later sources overwrite, absent fields stay *)

Section Precedence.

Context `{env : Env}.

Lemma getattr_add_warning msg self name :
  getattr (add_warning msg self) name = getattr self name.
Proof. by destruct self. Qed.

Lemma load_config_value config_path self self' name :
  load_config config_path self = Ok tt self' ->
  In name honorred_settings ->
  getattr self' name = default (getattr self name) (file_value config_path name).
Proof.
  intros (content & config_data & Hstat & Hparse & _ & Hset)%load_config_ok Hin.
  specialize (Hset name Hin). unfold file_value. rewrite Hstat, Hparse.
  destruct (config_data !! name) as [v|]; [|done]. by rewrite Hset.
Qed.

Lemma load_implicit_value config_file self self' name :
  load_implicit config_file self = Ok tt self' ->
  In name honorred_settings ->
  getattr self' name = default (getattr self name) (file_value config_file name).
Proof.
  rewrite load_implicit_unfold. unfold exists_, isdir.
  destruct (stat config_file) as [| | |readable content|error] eqn:Hstat; cbn [andb negb].
  - intros [= <-] _. unfold file_value. by rewrite Hstat.
  - intros [= <-] _. unfold file_value. by rewrite Hstat.
  - destruct (load_config config_file self) as [[] s|[] s] eqn:Hload; try done.
    intros [= <-]. by apply load_config_value.
  - destruct (load_config config_file self) as [[] s|[] s] eqn:Hload; try done.
    intros [= <-]. by apply load_config_value.
  - destruct (load_config config_file self) as [[] s|[] s] eqn:Hload; try done.
    intros [= <-]. by apply load_config_value.
Qed.

Lemma implicit_loop_value (l : list string) self self' name :
  for_each l load_implicit self = Ok tt self' ->
  In name honorred_settings ->
  getattr self' name = last_value l name (getattr self name).
Proof.
  intros Hloop Hin. revert self Hloop.
  induction l as [|config_file l IH]; intros self.
  - by intros [= <-].
  - cbn [for_each]. unfold mbind, M_bind.
    destruct (load_implicit config_file self) as [[] s1|] eqn:Hfile; [|done].
    intros Hrest. rewrite (IH _ Hrest). unfold last_value. cbn [fold_left].
    by rewrite (load_implicit_value _ _ _ _ Hfile Hin).
Qed.

Lemma load_explicit_value params self self' name :
  load_explicit params self = Ok tt self' ->
  In name honorred_settings ->
  getattr self' name
  = last_value
      match tower_config_file params with
      | Some config_path => if nonempty config_path then [config_path] else []
      | None => []
      end name (getattr self name).
Proof.
  rewrite load_explicit_unfold.
  destruct (tower_config_file params) as [config_path|]; [|by intros [= <-]].
  destruct (nonempty config_path); [|by intros [= <-]].
  cbn zeta.
  match goal with |- context [load_config config_path ?s] =>
    assert (getattr s name = getattr self name) as Hsame
      by (destruct (duplicated_params params); [done | apply getattr_add_warning]);
    destruct (load_config config_path s) as [[] s1|[] s1] eqn:Hload; try done
  end.
  intros [= <-] Hin. unfold last_value. cbn [fold_left].
  by rewrite (load_config_value _ _ _ _ Hload Hin), Hsame.
Qed.

End Precedence.


Lemma last_value_none `{env : Env} (paths : list string) (name : string) (v : pyval) :
  (forall path, In path paths -> file_value path name = None) ->
  last_value paths name v = v.
Proof.
  revert v. induction paths as [|path paths IH]; intros v Hnone; [done|].
  unfold last_value. cbn [fold_left]. rewrite (Hnone path) by (by left).
  apply IH. intros; apply Hnone; by right.
Qed.

Lemma last_value_last `{env : Env} (earlier later : list string)
    (config_path name : string) (v x : pyval) :
  file_value config_path name = Some x ->
  (forall path, In path later -> file_value path name = None) ->
  last_value (earlier ++ config_path :: later) name v = x.
Proof.
  intros Hx Hnone. unfold last_value. rewrite fold_left_app. cbn [fold_left].
  rewrite Hx. by apply last_value_none.
Qed.

(** C3. A file that loads assigns each recognised field it has, whatever
    the field held before, and leaves a field it does not have as it was;
    the direct parameters do the same after all files. Over the whole
    sequence of sources of a successful resolution: a directly supplied
    value is the resolved one; without it, the resolved value of a field is
    that of the last loaded file that has the field, whatever the files
    before it set, and the value the field had at the start when no loaded
    file has it. In particular, when a loaded file sets [username] to
    [admin] and [password] to [secret], no file loaded after it has a
    password, and the only direct parameter is the user name [override],
    the resolved user name is [override] and the resolved password is
    [secret]. *)
Theorem later_source_overwrites `{env : Env} :
  (forall config_path self self',
     load_config config_path self = Ok tt self' ->
     exists content config_data,
       stat config_path = File true content
       /\ parse_config content = inr config_data
       /\ forall name, In name honorred_settings ->
            match config_data !! name with
            | Some v => setting_value name v = inr (getattr self' name)
            | None => getattr self' name = getattr self name
            end)
  /\ (forall params self name,
        In name honorred_settings ->
        getattr (direct_overrides params self) name
        = match direct_value params name with
          | Some v => v
          | None => getattr self name
          end)
  /\ (forall params self self' name,
        resolve params self = Ok tt self' ->
        In name honorred_settings ->
        (forall v, direct_value params name = Some v -> getattr self' name = v)
        /\ (direct_value params name = None ->
            (forall earlier config_path later v,
               loaded_paths params = (earlier ++ config_path :: later)%list ->
               file_value config_path name = Some v ->
               (forall path, In path later -> file_value path name = None) ->
               getattr self' name = v)
            /\ ((forall path, In path (loaded_paths params) ->
                   file_value path name = None) ->
                getattr self' name = getattr self name)))
  /\ (forall params self self' earlier config_path later,
        resolve params self = Ok tt self' ->
        loaded_paths params = (earlier ++ config_path :: later)%list ->
        file_value config_path "username" = Some (VStr "admin") ->
        file_value config_path "password" = Some (VStr "secret") ->
        (forall path, In path later -> file_value path "password" = None) ->
        tower_username params = Some "override" ->
        tower_password params = None ->
        username self' = VStr "override" /\ password self' = VStr "secret")
  /\ (forall config_path content,
        (forall config_file, In config_file (config_files expanduser_home getcwd) ->
           stat config_file = Missing \/ stat config_file = Directory) ->
        nonempty config_path = true ->
        stat config_path = File true content ->
        parse_config content
        = inr {[ "username" := VStr "admin"; "password" := VStr "secret" ]} ->
        let params :=
          {| tower_host := None; tower_username := Some "override";
             tower_password := None; validate_certs := None;
             tower_oauthtoken := None; tower_config_file := Some config_path |} in
        exists self',
          resolve params class_defaults = Ok tt self'
          /\ username self' = VStr "override"
          /\ password self' = VStr "secret"
          /\ host self' = host class_defaults
          /\ verify_ssl self' = verify_ssl class_defaults
          /\ oauth_token self' = oauth_token class_defaults).
Proof.
  assert (forall params self self' name,
            resolve params self = Ok tt self' ->
            In name honorred_settings ->
            getattr self' name
            = default (last_value (loaded_paths params) name (getattr self name))
                (direct_value params name)) as Hseq.
  { intros params self self' name. rewrite resolve_unfold.
    destruct (for_each _ load_implicit self) as [[] self0|] eqn:Hloop; [|done].
    destruct (load_explicit params self0) as [[] self1|] eqn:Hexplicit; [|done].
    intros [= <-] Hin. rewrite getattr_direct_overrides by done. f_equal.
    rewrite (load_explicit_value _ _ _ _ Hexplicit Hin).
    rewrite (implicit_loop_value _ _ _ _ Hloop Hin).
    unfold loaded_paths, last_value. by rewrite fold_left_app. }
  split; [|split; [|split; [|split]]].
  - intros config_path self self' Hload.
    apply load_config_ok in Hload as (content & config_data & ? & ? & _ & ?).
    eauto.
  - intros params self name Hin. rewrite getattr_direct_overrides by done.
    by destruct (direct_value params name).
  - intros params self self' name Hres Hin. rewrite (Hseq _ _ _ _ Hres Hin).
    split; [by intros v ->|]. intros ->. cbn [default]. split.
    + intros earlier config_path later v -> Hv Hlater. by apply last_value_last.
    + apply last_value_none.
  - intros params self self' earlier config_path later Hres Hpaths Hu Hp Hlater
      Huser Hpass.
    change (username self') with (getattr self' "username").
    change (password self') with (getattr self' "password").
    rewrite !(Hseq _ _ _ _ Hres) by (cbn; tauto).
    unfold direct_value. cbn. rewrite Huser, Hpass. cbn. split; [done|].
    rewrite Hpaths. by apply last_value_last.
  - intros config_path content Hskip Hne Hstat Hparse params.
    rewrite resolve_unfold.
    rewrite for_each_skip_all by (intros; by apply load_implicit_skips, Hskip).
    rewrite load_explicit_unfold. cbn [tower_config_file params]. rewrite Hne.
    cbn zeta. rewrite load_config_unfold, Hstat, Hparse.
    eexists. split; [reflexivity|]. by vm_compute.
Qed.

Lemma later_source_overwrites_witness :
  let etc :=
    "[general]" +:+ LF +:+ "host = etc.example.com" +:+ LF +:+ "password = old" in
  let local :=
    "[general]" +:+ LF +:+ "username = admin" +:+ LF +:+ "password = secret" in
  let env :=
    example_env "/home/u" "/a"
      [("/etc/tower/tower_cli.cfg", File true etc); ("/a/tower_cli.cfg", File true local)]
      [(etc, YAMLError "expected <document start>");
       (local, YAMLError "expected <document start>")] in
  let params :=
    {| tower_host := None; tower_username := Some "override";
       tower_password := None; validate_certs := None;
       tower_oauthtoken := None; tower_config_file := None |} in
  let self' :=
    {| host := VStr "etc.example.com"; username := VStr "override";
       password := VStr "secret"; verify_ssl := VBool true; oauth_token := VNone;
       warnings := [] |} in
  resolve params class_defaults = Ok tt self'
  /\ loaded_paths params
     = (["/etc/tower/tower_cli.cfg"; "/home/u/.tower_cli.cfg"; "/.tower_cli.cfg"]
        ++ "/a/tower_cli.cfg" :: [])%list
  /\ file_value "/etc/tower/tower_cli.cfg" "password" = Some (VStr "old")
  /\ file_value "/a/tower_cli.cfg" "password" = Some (VStr "secret")
  /\ getattr self' "password" = VStr "secret"
  /\ getattr self' "username" = VStr "override"
  /\ (username self' = VStr "override" /\ password self' = VStr "secret")
  /\ (exists content config_data,
        stat "/a/tower_cli.cfg" = File true content
        /\ parse_config content = inr config_data
        /\ forall name, In name honorred_settings ->
             match config_data !! name with
             | Some v =>
                 setting_value name v
                 = inr (getattr
                          {| host := VStr "127.0.0.1"; username := VStr "admin";
                             password := VStr "secret"; verify_ssl := VBool true;
                             oauth_token := VNone; warnings := [] |} name)
             | None =>
                 getattr
                   {| host := VStr "127.0.0.1"; username := VStr "admin";
                      password := VStr "secret"; verify_ssl := VBool true;
                      oauth_token := VNone; warnings := [] |} name
                 = getattr class_defaults name
             end).
Proof.
  intros etc local env params self'.
  pose proof (@later_source_overwrites env)
    as (Hfile & Hdirect & Hsequence & Hexample & _).
  assert (resolve params class_defaults = Ok tt self') as Hres
    by (vm_compute; reflexivity).
  assert (loaded_paths params
          = (["/etc/tower/tower_cli.cfg"; "/home/u/.tower_cli.cfg"; "/.tower_cli.cfg"]
             ++ "/a/tower_cli.cfg" :: [])%list) as Hpaths
    by (vm_compute; reflexivity).
  assert (file_value "/a/tower_cli.cfg" "password" = Some (VStr "secret")) as Hsecret
    by (vm_compute; reflexivity).
  assert (file_value "/a/tower_cli.cfg" "username" = Some (VStr "admin")) as Hadmin
    by (vm_compute; reflexivity).
  split; [exact Hres|]. split; [exact Hpaths|].
  split; [vm_compute; reflexivity|]. split; [exact Hsecret|].
  split.
  { destruct (Hsequence params class_defaults self' "password" Hres) as [_ Hfiles].
    - right. right. left. reflexivity.
    - destruct (Hfiles eq_refl) as [Hlast _].
      apply (Hlast _ _ _ _ Hpaths Hsecret). intros path []. }
  split.
  { destruct (Hsequence params class_defaults self' "username" Hres) as [Hd _].
    - right. left. reflexivity.
    - apply Hd. reflexivity. }
  split.
  { apply (Hexample params class_defaults self' _ _ _ Hres Hpaths Hadmin Hsecret).
    - intros path [].
    - reflexivity.
    - reflexivity. }
  apply (Hfile "/a/tower_cli.cfg" class_defaults). vm_compute. reflexivity.
Defined.

(** ** C4: the directly supplied verify-certs flag *)

(** C4. Whenever the config files load, resolution succeeds and its
    [verify_ssl] is the directly supplied [validate_certs] if there is one,
    [False] included, and otherwise what the files (or the default) left
    there. *)
Theorem validate_certs_overrides `{env : Env} (params : Params)
    (self self1 : TowerModule) :
  load_config_files params self = Ok tt self1 ->
  exists self',
    resolve params self = Ok tt self'
    /\ verify_ssl self'
       = match validate_certs params with
         | Some b => VBool b
         | None => verify_ssl self1
         end.
Proof.
  intros Hfiles. unfold resolve, mbind, M_bind, modify. rewrite Hfiles.
  eexists. split; [reflexivity|].
  change (verify_ssl (direct_overrides params self1))
    with (getattr (direct_overrides params self1) "verify_ssl").
  rewrite getattr_direct_overrides by (cbn; tauto).
  unfold direct_value. cbn. by destruct (validate_certs params).
Qed.

Lemma validate_certs_overrides_witness :
  let text := "[general]" +:+ LF +:+ "verify_ssl = true" in
  let env :=
    example_env "/home/u" "/a"
      [("/etc/tower/tower_cli.cfg", File true text)]
      [(text, YAMLError "expected <document start>")] in
  let params :=
    {| tower_host := None; tower_username := None; tower_password := None;
       validate_certs := Some false; tower_oauthtoken := None;
       tower_config_file := None |} in
  let self1 :=
    {| host := VStr "127.0.0.1"; username := VNone; password := VNone;
       verify_ssl := VInt 1; oauth_token := VNone; warnings := [] |} in
  load_config_files params class_defaults = Ok tt self1
  /\ exists self',
       resolve params class_defaults = Ok tt self' /\ verify_ssl self' = VBool false.
Proof.
  intros text env params self1.
  assert (load_config_files params class_defaults = Ok tt self1) as Hfiles
    by (vm_compute; reflexivity).
  split; [exact Hfiles|].
  exact (@validate_certs_overrides env params class_defaults self1 Hfiles).
Defined.

(** ** C5 and X20: the resolved [verify_ssl], and the defaults *)

Section Defaults.

Context `{env : Env}.

Lemma load_config_keeps config_path self self' :
  load_config config_path self = Ok tt self' ->
  (is_truth_value (verify_ssl self) = true -> is_truth_value (verify_ssl self') = true)
  /\ forall name, In name honorred_settings ->
       absent_from_file name config_path -> getattr self' name = getattr self name.
Proof.
  intros (content & config_data & Hstat & Hparse & _ & Hset)%load_config_ok.
  split.
  - intros Hv. specialize (Hset "verify_ssl" ltac:(cbn; tauto)).
    unfold setting_value in Hset. cbn in Hset.
    destruct (config_data !! "verify_ssl") as [v|].
    + destruct v as [| | |x|]; try (by injection Hset as <-).
      by apply strtobool_value in Hset as [-> | ->].
    + by rewrite Hset.
  - intros name Hin Habsent. specialize (Hset name Hin).
    by rewrite (Habsent content config_data Hstat Hparse) in Hset.
Qed.

End Defaults.

(** X20. After a successful resolution [verify_ssl] is never a string: it
    is a boolean, or the integer 1 or 0 that [strtobool] (as in CPython's
    [distutils]) returns for a textual value. Every recognised field that
    no loaded file has and that no direct parameter sets keeps its class
    default: host [127.0.0.1], [verify_ssl] true, the other three [None]. *)
Theorem resolved_defaults `{env : Env} (params : Params) (self' : TowerModule) :
  resolve params class_defaults = Ok tt self' ->
  is_truth_value (verify_ssl self') = true
  /\ is_str (verify_ssl self') = false
  /\ forall name, In name honorred_settings ->
       absent_from_every_source params name ->
       getattr self' name = getattr class_defaults name.
Proof.
  rewrite resolve_unfold.
  destruct (for_each _ load_implicit class_defaults) as [[] self0|] eqn:Hloop; [|done].
  destruct (load_explicit params self0) as [[] self1|] eqn:Hexplicit; [|done].
  intros [= <-].
  set (Inv := fun s : TowerModule =>
    is_truth_value (verify_ssl s) = true
    /\ forall name, In name honorred_settings ->
         absent_from_every_source params name ->
         getattr s name = getattr class_defaults name).
  assert (Inv self0) as Hinv0.
  { eapply (for_each_ok_inv Inv); [| |exact Hloop]; [|by split].
    intros config_file s s' Hin [Hv Hd] [-> | Hload]%load_implicit_ok; [by split|].
    apply load_config_keeps in Hload as [Htruth Hkeep].
    split; [by apply Htruth|].
    intros name Hname Habsent. rewrite Hkeep; [by apply Hd | done |].
    apply Habsent. unfold sources. apply in_or_app. by left. }
  assert (Inv self1) as [Hv1 Hd1].
  { revert Hexplicit. rewrite load_explicit_unfold.
    destruct (tower_config_file params) as [config_path|] eqn:Hpath;
      [|by intros [= <-]].
    destruct (nonempty config_path); [|by intros [= <-]].
    cbn zeta.
    match goal with |- context [load_config config_path ?s] =>
      assert (Inv s) as [Hv Hd];
      [destruct (duplicated_params params);
       [exact Hinv0 | destruct self0; exact Hinv0]|];
      destruct (load_config config_path s) as [[] s1|[] s1] eqn:Hload; try done
    end.
    intros [= <-]. apply load_config_keeps in Hload as [Htruth Hkeep].
    split; [by apply Htruth|].
    intros name Hin Habsent. rewrite Hkeep; [by apply Hd | done |].
    apply Habsent. unfold sources. rewrite Hpath. apply in_or_app. right. by left. }
  assert (is_truth_value (verify_ssl (direct_overrides params self1)) = true) as Hv.
  { change (verify_ssl (direct_overrides params self1))
      with (getattr (direct_overrides params self1) "verify_ssl").
    rewrite getattr_direct_overrides by (cbn; tauto).
    unfold direct_value. cbn. by destruct (validate_certs params). }
  split; [exact Hv|]. split.
  { by destruct (verify_ssl (direct_overrides params self1)). }
  intros name Hin Habsent. rewrite getattr_direct_overrides by done.
  rewrite (proj1 Habsent). cbn. by apply Hd1.
Qed.

Lemma resolved_defaults_witness :
  let text := "[general]" +:+ LF +:+ "username = admin" in
  let env :=
    example_env "/home/u" "/a"
      [("/etc/tower/tower_cli.cfg", File true text)]
      [(text, YAMLError "expected <document start>")] in
  let self' :=
    {| host := VStr "127.0.0.1"; username := VStr "admin"; password := VNone;
       verify_ssl := VBool true; oauth_token := VNone; warnings := [] |} in
  resolve no_params class_defaults = Ok tt self'
  /\ absent_from_every_source no_params "host"
  /\ is_truth_value (verify_ssl self') = true
  /\ is_str (verify_ssl self') = false
  /\ getattr self' "host" = getattr class_defaults "host".
Proof.
  intros text env self'.
  assert (resolve no_params class_defaults = Ok tt self') as Hres
    by (vm_compute; reflexivity).
  assert (absent_from_every_source no_params "host") as Habsent.
  { split; [reflexivity|].
    intros path Hin content config_data Hstat Hparse.
    vm_compute in Hin.
    destruct Hin as [<-|Hin].
    - injection Hstat as <-. vm_compute in Hparse. injection Hparse as <-.
      reflexivity.
    - repeat (destruct Hin as [<-|Hin]; [discriminate Hstat|]). destruct Hin. }
  destruct (@resolved_defaults env no_params self' Hres) as (Htruth & Hstr & Hdefault).
  split; [exact Hres|]. split; [exact Habsent|].
  split; [exact Htruth|]. split; [exact Hstr|].
  apply Hdefault; [left; reflexivity | exact Habsent].
Defined.

(** C5 fails in the code. The comment of [load_config] says that
    [verify_ssl] must be a boolean, and the branch for a value that is not
    a string applies [bool()]; the branch for a string stores the result of
    [strtobool] as it is, which is the integer 1 or 0 (CPython's
    [distutils]). An INI file with [verify_ssl = yes] resolves
    [verify_ssl] to the integer 1, not a boolean, while a mapping with the
    integer 1 resolves it to the boolean [True]. *)
Theorem strtobool_result_stored_unconverted :
  let text := "[general]" +:+ LF +:+ "verify_ssl = yes" in
  let mapping := "verify_ssl: 1" in
  (let env :=
     example_env "/home/u" "/a"
       [("/etc/tower/tower_cli.cfg", File true text)]
       [(text, YAMLError "expected <document start>")] in
   resolve no_params class_defaults
   = Ok tt {| host := VStr "127.0.0.1"; username := VNone; password := VNone;
              verify_ssl := VInt 1; oauth_token := VNone; warnings := [] |}
   /\ is_bool (VInt 1) = false)
  /\ (let env :=
        example_env "/home/u" "/a"
          [("/etc/tower/tower_cli.cfg", File true mapping)]
          [(mapping, YamlDict {[ "verify_ssl" := VInt 1 ]})] in
      resolve no_params class_defaults
      = Ok tt {| host := VStr "127.0.0.1"; username := VNone; password := VNone;
                 verify_ssl := VBool true; oauth_token := VNone; warnings := [] |}).
Proof.
  intros text mapping. split.
  - intros env. split; [|reflexivity]. vm_compute. reflexivity.
  - intros env. vm_compute. reflexivity.
Qed.

(** ** C9: an empty string is no override *)

Section Blank.

Context `{env : Env}.

Lemma duplicated_params_normalize params :
  duplicated_params (normalize params) = duplicated_params params.
Proof.
  destruct params as [[[|]|] [[|]|] [[|]|] v [[|]|] c]; reflexivity.
Qed.

Lemma direct_overrides_normalize params self :
  direct_overrides (normalize params) self = direct_overrides params self.
Proof.
  destruct params as [[[|]|] [[|]|] [[|]|] v [[|]|] c]; reflexivity.
Qed.

Lemma resolve_normalize params self :
  resolve (normalize params) self = resolve params self.
Proof.
  rewrite !resolve_unfold.
  destruct (for_each _ load_implicit self) as [[] self0|]; [|done].
  rewrite !load_explicit_unfold, duplicated_params_normalize.
  cbn [tower_config_file normalize].
  destruct (tower_config_file params) as [config_path|].
  - destruct (nonempty config_path); [|by rewrite direct_overrides_normalize].
    cbn zeta.
    match goal with |- context [load_config config_path ?s] =>
      destruct (load_config config_path s) as [[] ?|[] ?] end;
      by rewrite ?direct_overrides_normalize.
  - by rewrite direct_overrides_normalize.
Qed.

End Blank.

(** C9. Two sets of parameters that differ only in that [tower_host],
    [tower_username], [tower_password] or [tower_oauthtoken] is the empty
    string in one and not supplied in the other resolve alike: the same
    module, the same warnings, the same failure. An empty string overrides
    neither a file nor a default. The verify-certs flag is tested for
    presence: [False] is assigned. *)
Theorem empty_string_is_not_supplied `{env : Env} (params params' : Params)
    (self : TowerModule) :
  blank_as_none (tower_host params) = blank_as_none (tower_host params') ->
  blank_as_none (tower_username params) = blank_as_none (tower_username params') ->
  blank_as_none (tower_password params) = blank_as_none (tower_password params') ->
  blank_as_none (tower_oauthtoken params) = blank_as_none (tower_oauthtoken params') ->
  validate_certs params = validate_certs params' ->
  tower_config_file params = tower_config_file params' ->
  resolve params self = resolve params' self
  /\ (tower_host params = Some "" ->
      host (direct_overrides params self) = host self)
  /\ (tower_username params = Some "" ->
      username (direct_overrides params self) = username self)
  /\ (tower_password params = Some "" ->
      password (direct_overrides params self) = password self)
  /\ (tower_oauthtoken params = Some "" ->
      oauth_token (direct_overrides params self) = oauth_token self)
  /\ (validate_certs params = Some false ->
      verify_ssl (direct_overrides params self) = VBool false).
Proof.
  intros Hh Hu Hp Ho Hv Hc. split.
  - rewrite <- (resolve_normalize params), <- (resolve_normalize params').
    unfold normalize. by rewrite Hh, Hu, Hp, Ho, Hv, Hc.
  - destruct self as [h u p s o w], params as [ph pu pp pv po pc]. cbn.
    repeat split; intros ->; unfold direct_overrides; cbn;
      repeat case_match; reflexivity.
Qed.

Lemma empty_string_is_not_supplied_witness :
  let text := "[general]" +:+ LF +:+ "host = tower.example.com" in
  let env :=
    example_env "/home/u" "/a"
      [("/etc/tower/tower_cli.cfg", File true text)]
      [(text, YAMLError "expected <document start>")] in
  let params :=
    {| tower_host := Some ""; tower_username := Some ""; tower_password := Some "";
       validate_certs := Some false; tower_oauthtoken := Some "";
       tower_config_file := None |} in
  let params' :=
    {| tower_host := None; tower_username := None; tower_password := None;
       validate_certs := Some false; tower_oauthtoken := None;
       tower_config_file := None |} in
  resolve params class_defaults = resolve params' class_defaults
  /\ resolve params class_defaults
     = Ok tt {| host := VStr "tower.example.com"; username := VNone;
                password := VNone; verify_ssl := VBool false;
                oauth_token := VNone; warnings := [] |}.
Proof.
  intros text env params params'.
  split; [|vm_compute; reflexivity].
  exact (proj1 (@empty_string_is_not_supplied env params params' class_defaults
                  eq_refl eq_refl eq_refl eq_refl eq_refl eq_refl)).
Defined.

(** ** C10: an error that is not a [ConfigFileException] *)

(** Every mapping whose [verify_ssl] is a string that [strtobool] rejects
    makes [load_config] raise the [ValueError] of [strtobool]. *)
Lemma load_config_value_error `{env : Env} config_path content config_data s e self :
  stat config_path = File true content ->
  yaml_load content = YamlDict config_data ->
  config_data !! "verify_ssl" = Some (VStr s) ->
  strtobool s = inl e ->
  exists self', load_config config_path self = Raise e self'.
Proof.
  intros Hstat Hyaml Hv He. rewrite load_config_unfold, Hstat.
  unfold parse_config. rewrite Hyaml.
  destruct (for_each honorred_settings (apply_setting config_data) self)
    as [[] self'|e' self'] eqn:Hloop.
  - apply apply_settings_ok in Hloop as [_ Hset].
    specialize (Hset "verify_ssl" ltac:(cbn; tauto)).
    rewrite Hv in Hset. unfold setting_value in Hset. cbn in Hset. congruence.
  - apply apply_settings_raise in Hloop as (s' & Hv' & He' & _).
    exists self'. congruence.
Qed.

(** C10. There is a config file that the YAML loader returns as a mapping,
    with [verify_ssl] set to the string [maybe], for which [load_config]
    raises a [ValueError], not a [ConfigFileException]; no handler catches
    it, and resolution ends with it. *)
Theorem strtobool_error_escapes :
  exists (env : Env) (config_path content : string)
         (config_data : gmap string pyval) (msg : string),
    stat config_path = File true content
    /\ yaml_load content = YamlDict config_data
    /\ config_data !! "verify_ssl" = Some (VStr "maybe")
    /\ load_config config_path class_defaults = Raise (ValueError msg) class_defaults
    /\ resolve no_params class_defaults = Raise (ValueError msg) class_defaults
    /\ config_file_error (ValueError msg) = false.
Proof.
  exists (example_env "/home/u" "/a"
            [("/etc/tower/tower_cli.cfg", File true "verify_ssl: maybe")]
            [("verify_ssl: maybe", YamlDict {[ "verify_ssl" := VStr "maybe" ]})]).
  exists "/etc/tower/tower_cli.cfg", "verify_ssl: maybe",
    {[ "verify_ssl" := VStr "maybe" ]}, "invalid truth value 'maybe'".
  repeat split; vm_compute; reflexivity.
Qed.

(** ** C7: a file without the [general] header *)

(** C7 fails in the code. [load_ini] puts ["[general]"] directly in front
    of the text, with no line end after it, so the INI reader takes the
    first line of the file as the rest of the header line and drops it.
    A file of two option lines without header resolves the second option
    only; the same two lines under a header line resolve both. *)
Theorem missing_header_drops_first_line :
  let body := "host = tower.example.com" +:+ LF +:+ "username = admin" in
  let sectioned := "[general]" +:+ LF +:+ body in
  let env :=
    example_env "/home/u" "/a"
      [("/srv/legacy.cfg", File true body); ("/srv/sectioned.cfg", File true sectioned)]
      [(body, YamlValue (VStr "host = tower.example.com username = admin"));
       (sectioned, YAMLError "expected <document start>")] in
  contains "[general]" body = false
  /\ load_config "/srv/legacy.cfg" class_defaults
     = Ok tt {| host := VStr "127.0.0.1"; username := VStr "admin"; password := VNone;
                verify_ssl := VBool true; oauth_token := VNone; warnings := [] |}
  /\ load_config "/srv/sectioned.cfg" class_defaults
     = Ok tt {| host := VStr "tower.example.com"; username := VStr "admin";
                password := VNone; verify_ssl := VBool true; oauth_token := VNone;
                warnings := [] |}.
Proof.
  intros body sectioned env. repeat split; vm_compute; reflexivity.
Qed.

(** ** C8: the warning about duplicated parameters *)

Section Duplicates.

Context `{env : Env}.

(** The names collected are the direct fields whose value is true, in the
    order of the tuple. *)
Lemma duplicated_params_spec params name :
  In name (duplicated_params params)
  <-> In name direct_fields /\ param_truthy params name = true.
Proof. unfold duplicated_params. apply filter_In. Qed.

(** When some direct field is true, the warning is recorded first and the
    explicit file is loaded after it; the warning itself never fails. *)
Lemma duplicate_warning_before_load params config_path self :
  tower_config_file params = Some config_path ->
  nonempty config_path = true ->
  duplicated_params params <> [] ->
  load_explicit params self
  = try_except (load_config config_path) fail_json
      (add_warning (duplicate_warning (duplicated_params params)) self).
Proof.
  intros Hpath Hne Hdup. unfold load_explicit. rewrite Hpath, Hne.
  cbn zeta. by destruct (duplicated_params params).
Qed.

End Duplicates.

(** C8 fails in the code. The loop that collects the duplicated parameters
    tests the truth value of each, so an explicit [validate_certs=False]
    next to [tower_config_file] is not listed and no warning is emitted,
    although the same [False] is assigned to [verify_ssl] as a supplied
    value. With [validate_certs=True] the warning is emitted. *)
Theorem explicit_false_is_not_warned :
  let text := "[general]" +:+ LF +:+ "host = tower.example.com" in
  let env :=
    example_env "/home/u" "/a"
      [("/srv/tower.cfg", File true text)]
      [(text, YAMLError "expected <document start>")] in
  let params (flag : bool) :=
    {| tower_host := None; tower_username := None; tower_password := None;
       validate_certs := Some flag; tower_oauthtoken := None;
       tower_config_file := Some "/srv/tower.cfg" |} in
  duplicated_params (params false) = []
  /\ resolve (params false) class_defaults
     = Ok tt {| host := VStr "tower.example.com"; username := VNone;
                password := VNone; verify_ssl := VBool false; oauth_token := VNone;
                warnings := [] |}
  /\ duplicated_params (params true) = ["validate_certs"]
  /\ resolve (params true) class_defaults
     = Ok tt {| host := VStr "tower.example.com"; username := VNone;
                password := VNone; verify_ssl := VBool true; oauth_token := VNone;
                warnings :=
                  ["The parameter(s) validate_certs were provided at the same time as tower_config_file. Precedence may be unstable, we suggest either using config file or params."] |}.
Proof.
  intros text env params. repeat split; vm_compute; reflexivity.
Qed.

(* ================================================================= *)
(** * Further properties of the module *)

(** ** Precedence of the sources *)

(** X1. A successful resolution gives every recognised field the value of
    the direct parameter if that parameter is supplied (non-empty, or any
    [validate_certs]); otherwise the value of the last file, in the order
    of loading (implicit candidates, then the explicit file), that has the
    field; otherwise the value the field had before. *)
Theorem resolve_precedence `{env : Env} (params : Params) (self self' : TowerModule)
    (name : string) :
  resolve params self = Ok tt self' ->
  In name honorred_settings ->
  getattr self' name
  = match direct_value params name with
    | Some v => v
    | None => last_value (loaded_paths params) name (getattr self name)
    end.
Proof.
  rewrite resolve_unfold.
  destruct (for_each _ load_implicit self) as [[] self0|] eqn:Hloop; [|done].
  destruct (load_explicit params self0) as [[] self1|] eqn:Hexplicit; [|done].
  intros [= <-] Hin. rewrite getattr_direct_overrides by done.
  destruct (direct_value params name); [done|]. cbn [default].
  rewrite (load_explicit_value _ _ _ _ Hexplicit Hin).
  rewrite (implicit_loop_value _ _ _ _ Hloop Hin).
  unfold loaded_paths, last_value. by rewrite fold_left_app.
Qed.

Lemma resolve_precedence_witness :
  let etc := "[general]" +:+ LF +:+ "host = etc.example.com" +:+ LF +:+ "username = etc" in
  let local := "[general]" +:+ LF +:+ "host = local.example.com" in
  let env :=
    example_env "/home/u" "/a"
      [("/etc/tower/tower_cli.cfg", File true etc); ("/a/tower_cli.cfg", File true local)]
      [(etc, YAMLError "expected <document start>");
       (local, YAMLError "expected <document start>")] in
  let self' :=
    {| host := VStr "local.example.com"; username := VStr "etc"; password := VNone;
       verify_ssl := VBool true; oauth_token := VNone; warnings := [] |} in
  resolve no_params class_defaults = Ok tt self'
  /\ getattr self' "host"
     = last_value (loaded_paths no_params) "host" (getattr class_defaults "host")
  /\ last_value (loaded_paths no_params) "host" (VStr "127.0.0.1")
     = VStr "local.example.com".
Proof.
  intros etc local env self'.
  assert (resolve no_params class_defaults = Ok tt self') as Hres
    by (vm_compute; reflexivity).
  split; [exact Hres|]. split.
  - apply (@resolve_precedence env no_params class_defaults self' "host" Hres).
    left. reflexivity.
  - vm_compute. reflexivity.
Defined.

(** ** The warnings of resolution *)

Section Warnings.

Context `{env : Env}.

Lemma load_config_warnings config_path self :
  warnings (final_state (load_config config_path self)) = warnings self.
Proof.
  destruct (load_config config_path self) as [[] self'|e self'] eqn:Hload; cbn.
  - by apply load_config_ok in Hload as (? & ? & _ & _ & Hw & _).
  - rewrite load_config_unfold in Hload.
    destruct (stat config_path) as [| | |[] content|error]; try (by injection Hload as _ <-).
    destruct (parse_config content); [by injection Hload as _ <-|].
    by apply apply_settings_raise in Hload as (? & _ & _ & Hw & _).
Qed.

Lemma load_implicit_warnings config_file self :
  warnings (final_state (load_implicit config_file self)) = warnings self.
Proof.
  rewrite load_implicit_unfold.
  destruct (exists_ config_file && negb (isdir config_file)); [|done].
  pose proof (load_config_warnings config_file self) as Hw.
  by destruct (load_config config_file self) as [|[]].
Qed.

Lemma implicit_loop_warnings (l : list string) self :
  warnings (final_state (for_each l load_implicit self)) = warnings self.
Proof.
  revert self. induction l as [|config_file l IH]; intros self; [done|].
  cbn [for_each]. unfold mbind, M_bind.
  pose proof (load_implicit_warnings config_file self) as Hw.
  destruct (load_implicit config_file self) as [[] s1|]; [|done].
  by rewrite IH.
Qed.

Lemma warnings_add_warning msg self :
  warnings (add_warning msg self) = (warnings self ++ [msg])%list.
Proof. by destruct self. Qed.

Lemma load_explicit_warnings params self :
  warnings (final_state (load_explicit params self))
  = (warnings self ++ expected_warnings params)%list.
Proof.
  rewrite load_explicit_unfold. unfold expected_warnings.
  destruct (tower_config_file params) as [config_path|]; [|by rewrite app_nil_r].
  destruct (nonempty config_path); [|by rewrite app_nil_r].
  cbn zeta.
  destruct (duplicated_params params) as [|d ds];
    match goal with |- context [load_config config_path ?s] =>
      pose proof (load_config_warnings config_path s) as Hw;
      destruct (load_config config_path s) as [|[]]
    end; cbn in Hw |- *; rewrite Hw;
    by rewrite ?app_nil_r, ?warnings_add_warning.
Qed.

Lemma warnings_direct_overrides params self :
  warnings (direct_overrides params self) = warnings self.
Proof.
  destruct self as [h u p s o w], params as [ph pu pp pv po pc].
  unfold direct_overrides; cbn.
  destruct ph as [[|]|], pu as [[|]|], pp as [[|]|], pv as [|], po as [[|]|];
    reflexivity.
Qed.

End Warnings.

(** X2. Resolution keeps the warnings the module already has and adds at
    most one. When it reaches the explicit file (every implicit candidate
    loaded or was skipped) it has added the warning about duplicated
    parameters exactly when the path is not empty and some direct field has
    a true value, whether the explicit file then loads or not; when an
    implicit candidate stops it, it has added none. *)
Theorem resolve_warnings `{env : Env} (params : Params) (self : TowerModule) :
  match for_each (config_files expanduser_home getcwd) load_implicit self with
  | Ok _ _ =>
      warnings (final_state (resolve params self))
      = (warnings self ++ expected_warnings params)%list
  | Raise _ _ => warnings (final_state (resolve params self)) = warnings self
  end.
Proof.
  rewrite resolve_unfold.
  pose proof (implicit_loop_warnings (config_files expanduser_home getcwd) self) as H0.
  destruct (for_each _ load_implicit self) as [[] self0|e self0]; cbn in H0; [|done].
  pose proof (load_explicit_warnings params self0) as H1.
  destruct (load_explicit params self0) as [[] self1|e self1]; cbn in H1 |- *.
  - by rewrite warnings_direct_overrides, H1, H0.
  - by rewrite H1, H0.
Qed.

(** ** Failures and their messages *)

Section Messages.

Context `{env : Env}.

Lemma load_ini_message config_string msg :
  load_ini config_string = inl (ConfigFileException msg) -> config_file_message msg.
Proof.
  unfold load_ini, config_file_message.
  destruct (read_file _) as [cause|config]; [intros [= <-]; eauto|].
  destruct (ini_settings _ _ _) as [cause|]; intros [= <-]; eauto.
Qed.

Lemma load_config_message config_path self msg self' :
  load_config config_path self = Raise (ConfigFileException msg) self' ->
  config_file_message msg.
Proof.
  rewrite load_config_unfold. unfold config_file_message at 1.
  destruct (stat config_path) as [| | |[] content|error]; try (intros [= <- _]; tauto).
  destruct (parse_config content) as [e|config_data] eqn:Hparse.
  - intros [= -> _]. unfold parse_config in Hparse.
    destruct (yaml_load content); try done; try (by eapply load_ini_message).
    injection Hparse as <-. unfold config_file_message. eauto 6.
  - by intros (s & _ & [? [=]]%strtobool_raises & _)%apply_settings_raise.
Qed.

End Messages.

(** X3. An implicit candidate that exists but is not a regular file (and
    not a directory), or that is a regular file without read permission, is
    not skipped: its turn of the loop ends in [fail_json], with a message
    that names the file and says it is not properly formatted, and
    resolution fails. *)
Theorem implicit_unreadable_aborts `{env : Env} (params : Params)
    (self : TowerModule) (config_file : string) :
  In config_file (config_files expanduser_home getcwd) ->
  stat config_file = Special \/ (exists content, stat config_file = File false content) ->
  load_implicit config_file self
  = Raise (FailJson ("The config file " +:+ config_file
                     +:+ " is not properly formatted "
                     +:+ match stat config_file with
                         | Special => "The specified config file does not exist"
                         | _ => "The specified config file cannot be read"
                         end)) self
  /\ exists e self', resolve params self = Raise e self'.
Proof.
  intros Hin Hstat.
  assert (forall s, load_implicit config_file s
    = Raise (FailJson ("The config file " +:+ config_file
                       +:+ " is not properly formatted "
                       +:+ match stat config_file with
                           | Special => "The specified config file does not exist"
                           | _ => "The specified config file cannot be read"
                           end)) s) as Hfail.
  { intros s. rewrite load_implicit_unfold, load_config_unfold. unfold exists_, isdir.
    by destruct Hstat as [-> | [content ->]]. }
  split; [apply Hfail|]. rewrite resolve_unfold.
  destruct (for_each_must_raise (config_files expanduser_home getcwd)
              load_implicit config_file self Hin) as (e & s' & ->); [|eauto].
  intros s. rewrite Hfail. eauto.
Qed.

Lemma implicit_unreadable_aborts_witness :
  let env :=
    example_env "/home/u" "/a"
      [("/home/u/.tower_cli.cfg", File false "host: tower.example.com")] [] in
  load_implicit "/home/u/.tower_cli.cfg" class_defaults
  = Raise (FailJson "The config file /home/u/.tower_cli.cfg is not properly formatted The specified config file cannot be read")
      class_defaults
  /\ exists e self', resolve no_params class_defaults = Raise e self'.
Proof.
  intros env.
  apply (@implicit_unreadable_aborts env no_params class_defaults "/home/u/.tower_cli.cfg").
  - right. left. reflexivity.
  - right. eexists. reflexivity.
Defined.

(** X4. The message of a [fail_json] that ends resolution is either the
    message of a [ConfigFileException] of [load_config] behind the text
    that names an implicit candidate, or, for the explicit file, that
    message alone, without the path of the file. *)
Theorem resolve_fail_json_message `{env : Env} (params : Params)
    (self self' : TowerModule) (msg : string) :
  resolve params self = Raise (FailJson msg) self' ->
  (exists config_file cause,
     In config_file (config_files expanduser_home getcwd)
     /\ config_file_message cause
     /\ msg = "The config file " +:+ config_file
              +:+ " is not properly formatted " +:+ cause)
  \/ (exists config_path,
        tower_config_file params = Some config_path
        /\ nonempty config_path = true
        /\ config_file_message msg).
Proof.
  rewrite resolve_unfold.
  destruct (for_each _ load_implicit self) as [[] self0|e self0] eqn:Hloop.
  - destruct (load_explicit params self0) as [[] self1|e self1] eqn:Hexplicit; [done|].
    intros [= -> ->]. right. revert Hexplicit. rewrite load_explicit_unfold.
    destruct (tower_config_file params) as [config_path|] eqn:Hpath; [|done].
    destruct (nonempty config_path) eqn:Hne; [|done]. cbn zeta.
    match goal with |- context [load_config config_path ?s] =>
      destruct (load_config config_path s) as [[] s1|[cause| | |] s1] eqn:Hload
    end; try done.
    + intros [= ->]. exists config_path.
      split; [done|]. split; [done|]. by eapply load_config_message.
    + by apply load_config_raise in Hload.
  - intros [= -> ->]. left.
    apply for_each_raise in Hloop as (config_file & s & Hin & Hfile).
    rewrite load_implicit_unfold in Hfile.
    destruct (exists_ config_file && negb (isdir config_file)); [|done].
    destruct (load_config config_file s) as [[] s1|[cause| | |] s1] eqn:Hload; try done.
    + injection Hfile as <- _. exists config_file, cause.
      split; [done|]. split; [by eapply load_config_message | done].
    + by apply load_config_raise in Hload.
Qed.

Lemma resolve_fail_json_message_witness :
  let env := example_env "/home/u" "/a" [] [] in
  let params :=
    {| tower_host := None; tower_username := None; tower_password := None;
       validate_certs := None; tower_oauthtoken := None;
       tower_config_file := Some "/srv/missing.cfg" |} in
  resolve params class_defaults
  = Raise (FailJson "The specified config file does not exist") class_defaults
  /\ ((exists config_file cause,
         In config_file (config_files expanduser_home getcwd)
         /\ config_file_message cause
         /\ "The specified config file does not exist"
            = "The config file " +:+ config_file
              +:+ " is not properly formatted " +:+ cause)
      \/ (exists config_path,
            tower_config_file params = Some config_path
            /\ nonempty config_path = true
            /\ config_file_message "The specified config file does not exist")).
Proof.
  intros env params.
  assert (resolve params class_defaults
          = Raise (FailJson "The specified config file does not exist") class_defaults)
    as Hres by (vm_compute; reflexivity).
  split; [exact Hres|].
  exact (@resolve_fail_json_message env params class_defaults class_defaults _ Hres).
Defined.

(** ** What the outcome depends on *)

Section Independence.

Context `{env : Env}.

Lemma apply_settings_error config_data self1 self2 :
  error_of (for_each honorred_settings (apply_setting config_data) self1)
  = error_of (for_each honorred_settings (apply_setting config_data) self2).
Proof.
  destruct self1 as [h1 u1 p1 s1 o1 w1], self2 as [h2 u2 p2 s2 o2 w2].
  unfold honorred_settings, for_each, apply_setting, mbind, M_bind, modify, lift,
    mret, M_ret, raise.
  cbn.
  destruct (config_data !! "host"), (config_data !! "username"),
    (config_data !! "password"), (config_data !! "verify_ssl") as [vs|],
    (config_data !! "oauth_token");
    try (destruct vs as [| | |x|]; try destruct (strtobool x));
    reflexivity.
Qed.

Lemma load_config_error config_path self1 self2 :
  error_of (load_config config_path self1) = error_of (load_config config_path self2).
Proof.
  rewrite !load_config_unfold.
  destruct (stat config_path) as [| | |[] content|error]; try reflexivity.
  destruct (parse_config content); [reflexivity | apply apply_settings_error].
Qed.

Lemma load_implicit_error config_file self1 self2 :
  error_of (load_implicit config_file self1) = error_of (load_implicit config_file self2).
Proof.
  rewrite !load_implicit_unfold.
  destruct (exists_ config_file && negb (isdir config_file)); [|reflexivity].
  pose proof (load_config_error config_file self1 self2) as H.
  destruct (load_config config_file self1) as [|[]],
    (load_config config_file self2) as [|[]]; cbn in H |- *; congruence.
Qed.

Lemma implicit_loop_error (l : list string) self1 self2 :
  error_of (for_each l load_implicit self1) = error_of (for_each l load_implicit self2).
Proof.
  revert self1 self2. induction l as [|config_file l IH]; intros self1 self2; [done|].
  cbn [for_each]. unfold mbind, M_bind.
  pose proof (load_implicit_error config_file self1 self2) as H.
  destruct (load_implicit config_file self1) as [[] ?|],
    (load_implicit config_file self2) as [[] ?|]; cbn in H |- *; try congruence.
  apply IH.
Qed.

Lemma load_explicit_error params1 params2 self1 self2 :
  tower_config_file params1 = tower_config_file params2 ->
  error_of (load_explicit params1 self1) = error_of (load_explicit params2 self2).
Proof.
  intros Hpath. rewrite !load_explicit_unfold, Hpath.
  destruct (tower_config_file params2) as [config_path|]; [|reflexivity].
  destruct (nonempty config_path); [|reflexivity]. cbn zeta.
  match goal with
  | |- error_of (match load_config _ ?s1 with _ => _ end)
       = error_of (match load_config _ ?s2 with _ => _ end) =>
      pose proof (load_config_error config_path s1 s2) as H;
      destruct (load_config config_path s1) as [|[]],
        (load_config config_path s2) as [|[]]
  end; cbn in H |- *; congruence.
Qed.

End Independence.

(** X5. Whether resolution fails, and with which exception and message,
    depends on the files and on [tower_config_file] only: neither the
    other direct parameters nor the state in which the module starts can
    make it fail or succeed. *)
Theorem resolve_error_independent `{env : Env} (params1 params2 : Params)
    (self1 self2 : TowerModule) :
  tower_config_file params1 = tower_config_file params2 ->
  error_of (resolve params1 self1) = error_of (resolve params2 self2).
Proof.
  intros Hpath. rewrite !resolve_unfold.
  pose proof (implicit_loop_error (config_files expanduser_home getcwd) self1 self2) as H0.
  destruct (for_each _ load_implicit self1) as [[] s1|],
    (for_each _ load_implicit self2) as [[] s2|]; cbn in H0 |- *; try congruence.
  pose proof (load_explicit_error params1 params2 s1 s2 Hpath) as H1.
  destruct (load_explicit params1 s1) as [[] ?|], (load_explicit params2 s2) as [[] ?|];
    cbn in H1 |- *; congruence.
Qed.

Lemma resolve_error_independent_witness :
  let env :=
    example_env "/home/u" "/a"
      [("/etc/tower/tower_cli.cfg", File true "verify_ssl: maybe")]
      [("verify_ssl: maybe", YamlDict {[ "verify_ssl" := VStr "maybe" ]})] in
  let params :=
    {| tower_host := Some "tower.example.com"; tower_username := Some "admin";
       tower_password := None; validate_certs := Some true; tower_oauthtoken := None;
       tower_config_file := None |} in
  error_of (resolve no_params class_defaults) = error_of (resolve params class_defaults)
  /\ error_of (resolve params class_defaults)
     = Some (ValueError "invalid truth value 'maybe'").
Proof.
  intros env params. split; [|vm_compute; reflexivity].
  exact (@resolve_error_independent env no_params params class_defaults class_defaults
           eq_refl).
Defined.

(** ** Mappings and INI files *)

(** X6. A file that the YAML loader returns as a mapping is loaded from
    the mapping alone: two such files whose mappings agree on the five
    recognised keys load alike, whatever else the mappings hold, and a
    mapping with none of the five keys loads without changing anything. *)
Theorem unrecognised_keys_ignored `{env : Env} (path1 path2 content1 content2 : string)
    (data1 data2 : gmap string pyval) (self : TowerModule) :
  stat path1 = File true content1 ->
  stat path2 = File true content2 ->
  yaml_load content1 = YamlDict data1 ->
  yaml_load content2 = YamlDict data2 ->
  (forall name, In name honorred_settings -> data1 !! name = data2 !! name) ->
  load_config path1 self = load_config path2 self
  /\ ((forall name, In name honorred_settings -> data1 !! name = None) ->
      load_config path1 self = Ok tt self).
Proof.
  intros Hstat1 Hstat2 Hyaml1 Hyaml2 Hagree.
  rewrite !load_config_unfold, Hstat1, Hstat2. unfold parse_config.
  rewrite Hyaml1, Hyaml2.
  assert (forall d1 d2 : gmap string pyval,
            (forall name, In name honorred_settings -> d1 !! name = d2 !! name) ->
            for_each honorred_settings (apply_setting d1) self
            = for_each honorred_settings (apply_setting d2) self) as Hsame.
  { intros d1 d2 H. unfold honorred_settings, for_each, apply_setting.
    by rewrite !H by (cbn; tauto). }
  split; [by apply Hsame|].
  intros Hnone. rewrite (Hsame data1 ∅).
  - by destruct self.
  - intros name Hin. by rewrite Hnone, lookup_empty.
Qed.

Lemma unrecognised_keys_ignored_witness :
  let text1 := "host: tower.example.com" +:+ LF +:+ "timeout: 30" in
  let text2 := "host: tower.example.com" in
  let env :=
    example_env "/home/u" "/a"
      [("/srv/one.cfg", File true text1); ("/srv/two.cfg", File true text2)]
      [(text1, YamlDict {[ "host" := VStr "tower.example.com"; "timeout" := VInt 30 ]});
       (text2, YamlDict {[ "host" := VStr "tower.example.com" ]})] in
  load_config "/srv/one.cfg" class_defaults = load_config "/srv/two.cfg" class_defaults.
Proof.
  intros text1 text2 env.
  refine (proj1 (@unrecognised_keys_ignored env "/srv/one.cfg" "/srv/two.cfg" text1 text2
            {[ "host" := VStr "tower.example.com"; "timeout" := VInt 30 ]}
            {[ "host" := VStr "tower.example.com" ]} class_defaults
            eq_refl eq_refl _ _ _)).
  - vm_compute. reflexivity.
  - vm_compute. reflexivity.
  - intros name Hin. cbn in Hin.
    repeat (destruct Hin as [<-|Hin]; [vm_compute; reflexivity|]). destruct Hin.
Defined.

Section IniValues.

Context `{env : Env}.

Lemma ini_settings_strings config names data0 data :
  ini_settings config names data0 = inr data ->
  (forall k v, data0 !! k = Some v -> is_str v = true) ->
  forall k v, data !! k = Some v -> is_str v = true.
Proof.
  revert data0. induction names as [|name names IH]; intros data0.
  - by intros [= <-].
  - cbn [ini_settings]. destruct (get config "general" name) as [x| |msg]; [| |done].
    + intros Hrest Hstr. apply (IH _ Hrest). intros k v.
      destruct (decide (name = k)) as [<-|Hne].
      * rewrite lookup_insert_eq. by intros [= <-].
      * rewrite lookup_insert_ne by done. apply Hstr.
    + apply IH.
Qed.

Lemma load_ini_strings config_string data :
  load_ini config_string = inr data ->
  forall k v, data !! k = Some v -> is_str v = true.
Proof.
  unfold load_ini. destruct (read_file _) as [msg|config]; [done|].
  destruct (ini_settings _ _ _) as [msg|data'] eqn:Hini; [done|].
  intros [= <-]. apply (ini_settings_strings _ _ _ _ Hini).
  intros k v. by rewrite lookup_empty.
Qed.

End IniValues.

(** X7. A file that is read as INI (the YAML loader does not return a
    mapping for it) and loads assigns strings only, except that
    [verify_ssl] becomes the integer 0 or 1: every recognised field is
    left as it was, or is a string, or is [verify_ssl] with 0 or 1. *)
Theorem ini_values_are_strings `{env : Env} (config_path content : string)
    (self self' : TowerModule) (name : string) :
  stat config_path = File true content ->
  (forall config_data, yaml_load content <> YamlDict config_data) ->
  load_config config_path self = Ok tt self' ->
  In name honorred_settings ->
  getattr self' name = getattr self name
  \/ (name <> "verify_ssl" /\ is_str (getattr self' name) = true)
  \/ (name = "verify_ssl"
      /\ (getattr self' name = VInt 0 \/ getattr self' name = VInt 1)).
Proof.
  intros Hstat Hyaml Hload Hin.
  apply load_config_ok in Hload as (content' & data & Hstat' & Hparse & _ & Hset).
  rewrite Hstat in Hstat'. injection Hstat' as <-.
  specialize (Hset name Hin).
  assert (forall k v, data !! k = Some v -> is_str v = true) as Hstr.
  { unfold parse_config in Hparse.
    destruct (yaml_load content) as [d| | |] eqn:Hy;
      [by destruct (Hyaml d) | | | done]; by eapply load_ini_strings. }
  destruct (data !! name) as [v|] eqn:Hv; [|by left]. right.
  specialize (Hstr _ _ Hv). destruct v as [| | |x|]; try done.
  unfold setting_value in Hset.
  destruct (String.eqb name "verify_ssl") eqn:Hname.
  - right. apply String.eqb_eq in Hname. split; [done|].
    by apply strtobool_value in Hset.
  - left. apply String.eqb_neq in Hname. split; [done|].
    by injection Hset as <-.
Qed.

Lemma ini_values_are_strings_witness :
  let text := "[general]" +:+ LF +:+ "host = 8080" +:+ LF +:+ "verify_ssl = off" in
  let env :=
    example_env "/home/u" "/a"
      [("/srv/tower.cfg", File true text)]
      [(text, YAMLError "expected <document start>")] in
  let self' :=
    {| host := VStr "8080"; username := VNone; password := VNone;
       verify_ssl := VInt 0; oauth_token := VNone; warnings := [] |} in
  load_config "/srv/tower.cfg" class_defaults = Ok tt self'
  /\ (getattr self' "host" = getattr class_defaults "host"
      \/ ("host" <> "verify_ssl" /\ is_str (getattr self' "host") = true)
      \/ ("host" = "verify_ssl"
          /\ (getattr self' "host" = VInt 0 \/ getattr self' "host" = VInt 1))).
Proof.
  intros text env self'.
  assert (load_config "/srv/tower.cfg" class_defaults = Ok tt self') as Hload
    by (vm_compute; reflexivity).
  split; [exact Hload|].
  apply (@ini_values_are_strings env "/srv/tower.cfg" text class_defaults self' "host").
  - reflexivity.
  - intros config_data. vm_compute. discriminate.
  - exact Hload.
  - left. reflexivity.
Defined.

(** ** The validation of the host *)

Lemma has_scheme_https h : has_scheme ("https://" +:+ h) = true.
Proof. destruct h; vm_compute; reflexivity. Qed.

Lemma has_scheme_normalize_host h : has_scheme (normalize_host h) = true.
Proof.
  unfold normalize_host. destruct (has_scheme h) eqn:E; [exact E | apply has_scheme_https].
Qed.

Lemma str_length_app (a b : string) :
  String.length (a +:+ b) = String.length a + String.length b.
Proof.
  induction a as [|c a IH]; [done|]. rewrite str_app_cons. cbn. by rewrite IH.
Qed.

(** X9. The host is given a scheme once: after lines 67 and 68 a string
    host starts with [http://] or [https://], the lines leave a host that
    already does untouched and put [https://] in front of any other (the
    test is anchored and case sensitive), and running them again changes
    nothing. *)
Theorem normalize_host_idempotent (h : string) :
  has_scheme (normalize_host h) = true
  /\ normalize_host (normalize_host h) = normalize_host h
  /\ (normalize_host h = h <-> has_scheme h = true)
  /\ (has_scheme h = false -> normalize_host h = "https://" +:+ h).
Proof.
  split; [apply has_scheme_normalize_host|]. split; [|split].
  - unfold normalize_host at 1. by rewrite has_scheme_normalize_host.
  - unfold normalize_host. destruct (has_scheme h) eqn:E; [done|].
    split; [|done]. intros Heq.
    apply (f_equal String.length) in Heq. rewrite str_length_app in Heq.
    cbn in Heq. lia.
  - unfold normalize_host. by intros ->.
Qed.

Lemma before_colon_no_colon s : has_colon (before_colon s) = false.
Proof.
  induction s as [|c s IH]; [done|].
  cbn [before_colon]. destruct (Ascii.eqb c ":") eqn:E; [done|].
  cbn [has_colon]. by rewrite E, IH.
Qed.

(** X10. The name that is looked up is the [netloc] up to its first
    colon: it has no colon, the [netloc] is that name alone or that name,
    a colon and a rest, and a [netloc] without colon is looked up whole.
    So a port is cut off, and for [user:password@host] the name looked up
    is [user]. *)
Theorem before_colon_spec (netloc : string) :
  has_colon (before_colon netloc) = false
  /\ (if has_colon netloc
      then exists rest, netloc = before_colon netloc +:+ ":" +:+ rest
      else before_colon netloc = netloc)
  /\ forall name rest,
       has_colon name = false -> before_colon (name +:+ ":" +:+ rest) = name.
Proof.
  split; [apply before_colon_no_colon|]. split.
  - induction netloc as [|c s IH]; [done|].
    cbn [before_colon has_colon]. destruct (Ascii.eqb c ":") eqn:E; cbn [orb].
    + apply Ascii.eqb_eq in E as ->. by exists s.
    + destruct (has_colon s).
      * destruct IH as [rest IH]. exists rest.
        by rewrite str_app_cons, <- IH.
      * by rewrite IH.
  - intros name rest. induction name as [|c name IH]; [done|].
    cbn [has_colon]. intros [Hc Hname]%orb_false_iff.
    rewrite str_app_cons. cbn [before_colon]. by rewrite Hc, IH.
Qed.

Lemma normalize_host_idempotent_witness :
  has_scheme "tower.example.com" = false
  /\ normalize_host "tower.example.com" = "https://tower.example.com"
  /\ normalize_host "HTTPS://tower" = "https://HTTPS://tower"
  /\ normalize_host "http://tower" = "http://tower".
Proof.
  split; [reflexivity|]. split.
  - exact (proj2 (proj2 (proj2 (normalize_host_idempotent "tower.example.com"))) eq_refl).
  - split; vm_compute; reflexivity.
Defined.

Lemma before_colon_spec_witness :
  has_colon "user" = false
  /\ before_colon ("user" +:+ ":" +:+ "secret@tower.example.com:8443") = "user".
Proof.
  split; [reflexivity|].
  exact (proj2 (proj2 (before_colon_spec "")) "user" "secret@tower.example.com:8443"
           eq_refl).
Defined.

Section Init.

Context `{env : Env} `{net : Net}.

Lemma validate_host_constructed self self' netloc :
  validate_host self = Constructed self' netloc ->
  exists h,
    host self = VStr h
    /\ self' = setattr self "host" (VStr (normalize_host h))
    /\ urlparse (normalize_host h) = inr netloc
    /\ gethostbyname (before_colon netloc) = None.
Proof.
  unfold validate_host. destruct (host self) as [| | |h|] eqn:Hhost; try done.
  cbn zeta.
  destruct (urlparse (normalize_host h)) as [e|netloc'] eqn:Hurl; [done|].
  destruct (gethostbyname (before_colon netloc')) eqn:Hname; [done|].
  intros [= <- <-]. exists h. split; [done|]. split; [|done].
  unfold normalize_host. destruct (has_scheme h); cbn [negb]; [|done].
  destruct self. cbn in Hhost |- *. by rewrite Hhost.
Qed.

Lemma resolve_host_value params self self' :
  resolve params self = Ok tt self' ->
  host self'
  = default (last_value (loaded_paths params) "host" (host self))
      (direct_value params "host").
Proof.
  rewrite resolve_unfold.
  destruct (for_each _ load_implicit self) as [[] self0|] eqn:Hloop; [|done].
  destruct (load_explicit params self0) as [[] self1|] eqn:Hexplicit; [|done].
  intros [= <-].
  assert (In "host" honorred_settings) as Hin by (cbn; tauto).
  change (host (direct_overrides params self1))
    with (getattr (direct_overrides params self1) "host").
  rewrite getattr_direct_overrides by done.
  rewrite (load_explicit_value _ _ _ _ Hexplicit Hin).
  rewrite (implicit_loop_value _ _ _ _ Hloop Hin).
  unfold loaded_paths, last_value. by rewrite fold_left_app.
Qed.

End Init.

(** X11. When the construction of the module succeeds, the host is a
    string that starts with [http://] or [https://]: the resolved host,
    with [https://] in front when it had no scheme. Every other resolved
    field and the warnings are as resolution left them, the URL parsed and
    the part of its [netloc] before the first colon resolved as a host
    name. *)
Theorem init_constructed `{env : Env} `{net : Net} (params : Params)
    (self : TowerModule) (netloc : string) :
  init params = Constructed self netloc ->
  exists self0 h,
    resolve params class_defaults = Ok tt self0
    /\ host self0 = VStr h
    /\ host self = VStr (normalize_host h)
    /\ has_scheme (normalize_host h) = true
    /\ username self = username self0
    /\ password self = password self0
    /\ verify_ssl self = verify_ssl self0
    /\ oauth_token self = oauth_token self0
    /\ warnings self = warnings self0
    /\ urlparse (normalize_host h) = inr netloc
    /\ gethostbyname (before_colon netloc) = None.
Proof.
  unfold init.
  destruct (resolve params class_defaults) as [[] self0|] eqn:Hres; [|done].
  intros (h & Hhost & -> & Hurl & Hname)%validate_host_constructed.
  exists self0, h. split; [done|]. split; [done|].
  split; [by destruct self0|]. split; [apply has_scheme_normalize_host|].
  by destruct self0.
Qed.

Lemma init_constructed_witness :
  let env := example_env "/home/u" "/a" [] [] in
  let net :=
    example_net [("https://controller.example.com:8443", "controller.example.com:8443")]
      ["controller.example.com"] in
  let params :=
    {| tower_host := Some "controller.example.com:8443"; tower_username := None;
       tower_password := None; validate_certs := None; tower_oauthtoken := None;
       tower_config_file := None |} in
  let self :=
    {| host := VStr "https://controller.example.com:8443"; username := VNone;
       password := VNone; verify_ssl := VBool true; oauth_token := VNone;
       warnings := [] |} in
  init params = Constructed self "controller.example.com:8443"
  /\ exists self0 h,
       resolve params class_defaults = Ok tt self0
       /\ host self0 = VStr h
       /\ host self = VStr (normalize_host h)
       /\ has_scheme (normalize_host h) = true
       /\ username self = username self0
       /\ password self = password self0
       /\ verify_ssl self = verify_ssl self0
       /\ oauth_token self = oauth_token self0
       /\ warnings self = warnings self0
       /\ urlparse (normalize_host h) = inr "controller.example.com:8443"
       /\ gethostbyname (before_colon "controller.example.com:8443") = None.
Proof.
  intros env net params self.
  assert (init params = Constructed self "controller.example.com:8443") as Hinit
    by (vm_compute; reflexivity).
  split; [exact Hinit|].
  exact (@init_constructed env net params self _ Hinit).
Defined.

(** X12. Validating the host of a module that was constructed changes
    nothing: the same module and the same [netloc] come out. *)
Theorem validate_host_idempotent `{net : Net} (self self' : TowerModule)
    (netloc : string) :
  validate_host self = Constructed self' netloc ->
  validate_host self' = Constructed self' netloc.
Proof.
  intros (h & Hhost & -> & Hurl & Hname)%validate_host_constructed.
  unfold validate_host.
  assert (host (setattr self "host" (VStr (normalize_host h)))
          = VStr (normalize_host h)) as -> by (by destruct self).
  rewrite has_scheme_normalize_host. cbn [negb].
  assert (normalize_host (normalize_host h) = normalize_host h) as ->
    by (unfold normalize_host at 1; by rewrite has_scheme_normalize_host).
  by rewrite Hurl, Hname.
Qed.

Lemma validate_host_idempotent_witness :
  let net := example_net [("https://tower", "tower")] ["tower"] in
  let self' :=
    {| host := VStr "https://tower"; username := VNone; password := VNone;
       verify_ssl := VBool true; oauth_token := VNone; warnings := [] |} in
  validate_host (setattr class_defaults "host" (VStr "tower")) = Constructed self' "tower"
  /\ validate_host self' = Constructed self' "tower".
Proof.
  intros net self'.
  assert (validate_host (setattr class_defaults "host" (VStr "tower"))
          = Constructed self' "tower") as H by (vm_compute; reflexivity).
  split; [exact H|].
  exact (@validate_host_idempotent net _ self' "tower" H).
Defined.

(** X13. The construction of the module ends with the [TypeError] of
    [re.match] exactly when resolution succeeds with a host that is not a
    string. Then no host was supplied directly, and the last loaded file
    that has a host has one that is not a string (a number, a boolean, a
    list or null in a YAML or JSON mapping). *)
Theorem init_type_error `{env : Env} `{net : Net} (params : Params)
    (self : TowerModule) :
  init params = TypeErrorRaised self
  <-> resolve params class_defaults = Ok tt self
      /\ is_str (host self) = false
      /\ direct_value params "host" = None
      /\ host self = last_value (loaded_paths params) "host" (VStr "127.0.0.1").
Proof.
  unfold init. split.
  - destruct (resolve params class_defaults) as [[] self0|] eqn:Hres; [|done].
    unfold validate_host. destruct (host self0) as [| | |h|] eqn:Hhost;
      try (intros [= <-]);
      try (match goal with |- context [urlparse ?u] =>
             destruct (urlparse u) as [|n]; [done|];
             by destruct (gethostbyname (before_colon n)) end);
      pose proof (resolve_host_value params class_defaults self0 Hres) as Hp;
      change (host class_defaults) with (VStr "127.0.0.1") in Hp;
      rewrite Hhost in Hp |- *;
      (split; [done|]); (split; [done|]);
      destruct (direct_value params "host") as [v|] eqn:Hd; cbn [default] in Hp;
      try done;
      unfold direct_value in Hd; cbn in Hd;
      destruct (tower_host params) as [x|]; try done;
      destruct (nonempty x); try done; by injection Hd as <-.
  - intros (-> & Hstr & _). unfold validate_host.
    by destruct (host self).
Qed.

Lemma init_type_error_witness :
  let text := "host: 8080" in
  let env :=
    example_env "/home/u" "/a"
      [("/etc/tower/tower_cli.cfg", File true text)]
      [(text, YamlDict {[ "host" := VInt 8080 ]})] in
  let net := example_net [] [] in
  let self :=
    {| host := VInt 8080; username := VNone; password := VNone;
       verify_ssl := VBool true; oauth_token := VNone; warnings := [] |} in
  init no_params = TypeErrorRaised self
  /\ resolve no_params class_defaults = Ok tt self.
Proof.
  intros text env net self.
  assert (init no_params = TypeErrorRaised self) as H by (vm_compute; reflexivity).
  split; [exact H|].
  exact (proj1 (proj1 (@init_type_error env net no_params self) H)).
Defined.

(** ** More on the list of candidates *)

Lemma walk_up_shape (n : nat) (local_dir : string) (files : list string) :
  String.length local_dir <= n -> 2 <= List.length files ->
  exists middle,
    walk_up local_dir files = (take 2 files ++ middle ++ drop 2 files)%list
    /\ List.length middle <= String.length local_dir
    /\ Forall (fun f => exists d, f = posixpath.join d dot_config_name) middle.
Proof.
  revert local_dir files. induction n as [|n IH]; intros local_dir files Hn Hfiles;
    rewrite walk_up_step;
    pose proof (split_length local_dir) as Hsplit;
    destruct (posixpath.split local_dir).2 as [|c tail] eqn:Htail;
    try (exists []; cbn [app]; rewrite take_drop;
         split; [done|]; split; [cbn; lia | constructor]).
  - cbn in Hsplit. lia.
  - cbn in Hsplit.
    destruct files as [|f1 [|f2 files]]; cbn in Hfiles; try lia.
    destruct (IH (posixpath.split local_dir).1
                (py_insert 2 (posixpath.join (posixpath.split local_dir).1 dot_config_name)
                   (f1 :: f2 :: files)))
      as (middle & -> & Hlen & Hall); [lia | cbn; lia |].
    exists (middle ++ [posixpath.join (posixpath.split local_dir).1 dot_config_name])%list.
    split; [cbn; by rewrite <- app_assoc|]. split.
    + rewrite length_app. cbn. lia.
    + apply Forall_app. split; [done|]. constructor; [eauto | constructor].
Qed.

(** X14. Whatever the working directory is, the system file and the home
    file are the first two candidates and the working directory's
    [tower_cli.cfg] is the last one; between them there are at most as
    many candidates as the working directory has characters, each the
    [.tower_cli.cfg] of some directory. *)
Theorem config_files_shape (home cwd : string) :
  exists middle,
    config_files home cwd
    = ("/etc/tower/tower_cli.cfg" :: posixpath.join home ".tower_cli.cfg" :: middle
       ++ [posixpath.join cwd "tower_cli.cfg"])%list
    /\ List.length middle <= String.length cwd
    /\ Forall (fun f => exists d, f = posixpath.join d ".tower_cli.cfg") middle.
Proof.
  change (config_files home cwd)
    with (walk_up cwd ["/etc/tower/tower_cli.cfg"; posixpath.join home dot_config_name;
                       posixpath.join cwd config_name]).
  destruct (walk_up_shape (String.length cwd) cwd
              ["/etc/tower/tower_cli.cfg"; posixpath.join home dot_config_name;
               posixpath.join cwd config_name])
    as (middle & -> & Hlen & Hall); [done | cbn; lia |].
  by exists middle.
Qed.

(** X15. [split] undoes [join] on absolute paths: joining a path of
    components with one more component and splitting the result gives the
    path and the component back, and joining the two parts that [split]
    returns gives the path that was split. *)
Theorem split_join_round_trip (cs : list string) (c : string) :
  Forall component cs -> component c ->
  posixpath.split (posixpath.join (abs_path cs) c) = (abs_path cs, c)
  /\ posixpath.join (posixpath.split (abs_path (cs ++ [c])%list)).1
       (posixpath.split (abs_path (cs ++ [c])%list)).2
     = abs_path (cs ++ [c])%list.
Proof.
  intros Hcs Hc.
  assert (posixpath.join (abs_path cs) c = abs_path (cs ++ [c])%list) as Hjoin.
  { rewrite join_abs_path; [| |done].
    - rewrite <- components_path_snoc. by destruct cs.
    - destruct Hc as [Hne Hsep]. destruct c as [|a c]; [done|].
      cbn in Hsep |- *. apply andb_true_iff in Hsep as [Ha _].
      by destruct (Ascii.eqb a posixpath.sep). }
  rewrite Hjoin, split_abs_path_snoc by done. by split.
Qed.

Lemma split_join_round_trip_witness :
  posixpath.split (posixpath.join "/a/b" "c") = ("/a/b", "c")
  /\ posixpath.join (posixpath.split "/a/b/c").1 (posixpath.split "/a/b/c").2
     = "/a/b/c".
Proof.
  apply (split_join_round_trip ["a"; "b"] "c"); repeat constructor.
Defined.

(** ** More on the parameters *)

(** X16. An empty [tower_config_file] is no config file: resolution goes
    as if the parameter had not been supplied, without a load and without
    a warning. *)
Theorem empty_config_file_is_none `{env : Env} (params : Params) (self : TowerModule) :
  tower_config_file params = Some "" ->
  resolve params self
  = resolve {| tower_host := tower_host params; tower_username := tower_username params;
               tower_password := tower_password params;
               validate_certs := validate_certs params;
               tower_oauthtoken := tower_oauthtoken params;
               tower_config_file := None |} self.
Proof.
  intros Hpath. rewrite !resolve_unfold.
  destruct (for_each _ load_implicit self) as [[] self0|]; [|done].
  rewrite !load_explicit_unfold, Hpath. cbn.
  by destruct params.
Qed.

Lemma empty_config_file_is_none_witness :
  let env := example_env "/home/u" "/a" [] [] in
  let params :=
    {| tower_host := Some "tower.example.com"; tower_username := None;
       tower_password := None; validate_certs := None; tower_oauthtoken := None;
       tower_config_file := Some "" |} in
  resolve params class_defaults
  = Ok tt {| host := VStr "tower.example.com"; username := VNone; password := VNone;
             verify_ssl := VBool true; oauth_token := VNone; warnings := [] |}.
Proof.
  intros env params.
  rewrite (@empty_config_file_is_none env params class_defaults eq_refl).
  vm_compute. reflexivity.
Defined.

(** ** Exceptions of resolution *)


(** ** Loading again *)

Lemma module_ext (a b : TowerModule) :
  (forall name, In name honorred_settings -> getattr a name = getattr b name) ->
  warnings a = warnings b -> a = b.
Proof.
  destruct a as [h1 u1 p1 s1 o1 w1], b as [h2 u2 p2 s2 o2 w2]. intros H Hw.
  pose proof (H "host" ltac:(cbn; tauto)) as Hh.
  pose proof (H "username" ltac:(cbn; tauto)) as Hu.
  pose proof (H "password" ltac:(cbn; tauto)) as Hp.
  pose proof (H "verify_ssl" ltac:(cbn; tauto)) as Hs.
  pose proof (H "oauth_token" ltac:(cbn; tauto)) as Ho.
  cbn in *. congruence.
Qed.

(** X18. Loading a file a second time right after it has loaded changes
    nothing: the second load succeeds and leaves the module as the first
    left it. (The loop does load a file twice when a path occurs twice
    among the candidates.) *)
Theorem load_config_twice `{env : Env} (config_path : string)
    (self self' : TowerModule) :
  load_config config_path self = Ok tt self' ->
  load_config config_path self' = Ok tt self'.
Proof.
  intros Hload.
  pose proof (load_config_error config_path self self') as Herr.
  rewrite Hload in Herr. cbn in Herr.
  destruct (load_config config_path self') as [[] self''|] eqn:Hagain; [|done].
  f_equal.
  apply load_config_ok in Hload as (content & data & Hstat & Hparse & Hw & Hset).
  apply load_config_ok in Hagain as (content' & data' & Hstat' & Hparse' & Hw' & Hset').
  rewrite Hstat in Hstat'. injection Hstat' as <-.
  rewrite Hparse in Hparse'. injection Hparse' as <-.
  apply module_ext; [|done].
  intros name Hin. specialize (Hset name Hin). specialize (Hset' name Hin).
  destruct (data !! name); congruence.
Qed.

Lemma load_config_twice_witness :
  let text := "[general]" +:+ LF +:+ "host = tower.example.com" in
  let env :=
    example_env "/home/u" "/a"
      [("/srv/tower.cfg", File true text)]
      [(text, YAMLError "expected <document start>")] in
  let self' :=
    {| host := VStr "tower.example.com"; username := VNone; password := VNone;
       verify_ssl := VBool true; oauth_token := VNone; warnings := [] |} in
  load_config "/srv/tower.cfg" class_defaults = Ok tt self'
  /\ load_config "/srv/tower.cfg" self' = Ok tt self'.
Proof.
  intros text env self'.
  assert (load_config "/srv/tower.cfg" class_defaults = Ok tt self') as H
    by (vm_compute; reflexivity).
  split; [exact H|].
  exact (@load_config_twice env "/srv/tower.cfg" class_defaults self' H).
Defined.

Lemma config_files_abs_path (home : string) (cs : list string) :
  Forall component cs ->
  config_files home (abs_path cs)
  = ("/etc/tower/tower_cli.cfg"
     :: posixpath.join home dot_config_name
     :: List.map (fun i => components_path (take i cs) +:+ "/.tower_cli.cfg")
          (seq 0 (List.length cs))
     ++ [components_path cs +:+ "/tower_cli.cfg"])%list.
Proof.
  intros Hcs. unfold config_files.
  rewrite walk_up_abs_path by (done || cbn; lia).
  cbn [take drop app]. do 2 f_equal.
  rewrite (join_abs_path cs config_name) by done.
  f_equal. unfold ancestors. rewrite map_map.
  apply map_ext_in. intros i [_ Hi]%in_seq.
  rewrite (join_abs_path (take i cs) dot_config_name); [done..|].
  by apply Forall_take.
Qed.

(** X19. When the working directory lies below the home directory, the
    home file [~/.tower_cli.cfg] is a candidate twice: second in the list,
    and again as the file of an ancestor of the working directory, after
    the files of the directories above the home directory. *)
Theorem home_file_is_candidate_twice `{env : Env} (hs cs : list string) :
  expanduser_home = abs_path hs ->
  getcwd = abs_path (hs ++ cs)%list ->
  Forall component hs -> Forall component cs ->
  hs <> [] -> cs <> [] ->
  let home_file := components_path hs +:+ "/.tower_cli.cfg" in
  exists above below,
    config_files expanduser_home getcwd
    = ("/etc/tower/tower_cli.cfg" :: home_file :: above ++ home_file :: below)%list
    /\ List.length above = List.length hs.
Proof.
  intros Hhome Hcwd Hhs Hcs Hne Hcwdne home_file.
  rewrite Hcwd, config_files_abs_path by (by apply Forall_app).
  rewrite Hhome, (join_abs_path hs dot_config_name) by done.
  rewrite length_app.
  assert (0 < List.length cs) as Hlen by (destruct cs; [done | cbn; lia]).
  replace (List.length hs + List.length cs)
    with (List.length hs + S (List.length cs - 1)) by lia.
  rewrite seq_app, map_app. cbn [seq List.map Nat.add].
  rewrite take_app_length.
  eexists _, _. split.
  - fold home_file. by rewrite <- app_assoc.
  - by rewrite length_map, length_seq.
Qed.

Lemma home_file_is_candidate_twice_witness :
  let env := example_env "/home/u" "/home/u/work" [] [] in
  exists above below,
    config_files expanduser_home getcwd
    = ("/etc/tower/tower_cli.cfg" :: "/home/u/.tower_cli.cfg"
       :: above ++ "/home/u/.tower_cli.cfg" :: below)%list
    /\ List.length above = 2.
Proof.
  intros env.
  apply (@home_file_is_candidate_twice env ["home"; "u"] ["work"]);
    try reflexivity; try discriminate; repeat constructor.
Defined.
